(** * SHT4xI analog sensor conversion routines: model and verified properties

    Shallow embedding of [src/main.c], [src/utilities.c] and
    [src/utilities-config.h] of the Signaloid SHT4xI demonstration.

    Conventions of the embedding.
    - A C [double] is a value of an arithmetic interface [DoubleArith]:
      the program only adds, subtracts, multiplies and divides doubles and
      writes decimal literals.  The interface has two instances: IEEE-754
      binary64 ([PrimFloat.float]), which is what the compiled program
      runs on, and exact rationals ([Q]), used for the algebraic laws.
    - A [size_t] or enumeration value is a [nat]: the program only compares
      such values and uses them as array indices and loop bounds.
    - An array of doubles is a [list]; element [i] is read with [!!] and
      written with [<[i:=v]>].  The C program always indexes its arrays
      in range, theorems carry the array length where they need it.
    - The diagnostic stream is a list of [Diagnostic] messages. *)

From Stdlib Require String DecimalString.
From Stdlib Require Import ZArith QArith Qabs Lia Lqa List Floats Uint63.
From stdpp Require Import base list.

(** ** The arithmetic of [double] *)

Class DoubleArith (D : Type) : Type := {
  dlit : Q -> D;
  dadd : D -> D -> D;
  dsub : D -> D -> D;
  dmul : D -> D -> D;
  ddiv : D -> D -> D
}.

Declare Scope double_scope.
Delimit Scope double_scope with D.
Infix "+" := dadd : double_scope.
Infix "-" := dsub : double_scope.
Infix "*" := dmul : double_scope.
Infix "/" := ddiv : double_scope.

(** Exact rational arithmetic. *)
#[export] Instance Q_arith : DoubleArith Q := {|
  dlit := fun q => q;
  dadd := Qplus;
  dsub := Qminus;
  dmul := Qmult;
  ddiv := Qdiv
|}.

(** IEEE-754 binary64.  A decimal literal [n/d] with [|n|, d < 2^53] is the
    correctly rounded quotient of two exactly represented integers, which
    is the double the C compiler produces for it. *)
Definition float_of_Z (z : Z) : float :=
  if (z <? 0)%Z
  then PrimFloat.opp (PrimFloat.of_uint63 (Uint63.of_Z (- z)))
  else PrimFloat.of_uint63 (Uint63.of_Z z).

Definition float_lit (q : Q) : float :=
  PrimFloat.div (float_of_Z (Qnum q)) (float_of_Z (Zpos (Qden q))).

#[export] Instance float_arith : DoubleArith float := {|
  dlit := float_lit;
  dadd := PrimFloat.add;
  dsub := PrimFloat.sub;
  dmul := PrimFloat.mul;
  ddiv := PrimFloat.div
|}.

(** The rational number a finite double denotes; [None] for infinities
    and NaN. *)
Definition float_to_Q (x : float) : option Q :=
  match Prim2SF x with
  | S754_zero _ => Some 0%Q
  | S754_finite s m e =>
      Some ((if s then - inject_Z (Zpos m) else inject_Z (Zpos m)) * 2 ^ e)%Q
  | S754_infinity _ => None
  | S754_nan => None
  end.

(** [within_tolerance x q tol]: the double [x] is finite and [|x - q| <= tol]. *)
Definition within_tolerance (x : float) (q tol : Q) : bool :=
  match float_to_Q x with
  | Some v => Qle_bool (Qabs (v - q)) tol
  | None => false
  end.

(** ** [utilities-config.h] *)

Section Config.
Context {D : Type} `{DoubleArith D}.

Definition kSensorCalibrationConstant1 : D := dlit (-12.5).
Definition kSensorCalibrationConstant2 : D := dlit 125.
Definition kSensorCalibrationConstant3 : D := dlit (-66.875).
Definition kSensorCalibrationConstant4 : D := dlit 218.75.
Definition kSensorCalibrationConstant5 : D := dlit (-88.375).
Definition kSensorCalibrationConstant6 : D := dlit 393.75.

Definition kDefaultInputDistributionVtUniformDistLow : D := dlit 2.3.
Definition kDefaultInputDistributionVtUniformDistHigh : D := dlit 2.7.
Definition kDefaultInputDistributionVrhUniformDistLow : D := dlit 2.3.
Definition kDefaultInputDistributionVrhUniformDistHigh : D := dlit 2.7.
Definition kDefaultInputDistributionVsupplyUniformDistLow : D := dlit 4.8.
Definition kDefaultInputDistributionVsupplyUniformDistHigh : D := dlit 5.4.
End Config.

(** [InputDistributionIndex] *)
Definition kInputDistributionIndexVrh : nat := 0.
Definition kInputDistributionIndexVt : nat := 1.
Definition kInputDistributionIndexVsupply : nat := 2.
Definition kInputDistributionIndexMax : nat := 3.

(** [OutputDistributionIndex] *)
Definition kOutputDistributionIndexCalibratedRelativeHumidity : nat := 0.
Definition kOutputDistributionIndexCalibratedTemperatureCelcius : nat := 1.
Definition kOutputDistributionIndexCalibratedTemperatureFahrenheit : nat := 2.
Definition kOutputDistributionIndexMax : nat := 3.

(** ** Command line arguments

    [CommonCommandLineArguments] is declared in the common utility routines,
    which are not part of the sources; the record has the fields that
    [main.c] and [utilities.c] read or write. *)
Record CommonCommandLineArguments : Type := {
  outputSelect : nat;
  isOutputSelected : bool;
  numberOfMonteCarloIterations : nat;
  isHelpEnabled : bool;
  isInputFromFileEnabled : bool;
  isWriteToFileEnabled : bool;
  isMonteCarloMode : bool;
  isBenchmarkingMode : bool;
  isTimingEnabled : bool;
  isOutputJSONMode : bool
}.

Record CommandLineArguments : Type := {
  common : CommonCommandLineArguments
}.

Definition set_outputSelect (n : nat) (c : CommonCommandLineArguments)
  : CommonCommandLineArguments :=
  {| outputSelect := n;
     isOutputSelected := isOutputSelected c;
     numberOfMonteCarloIterations := numberOfMonteCarloIterations c;
     isHelpEnabled := isHelpEnabled c;
     isInputFromFileEnabled := isInputFromFileEnabled c;
     isWriteToFileEnabled := isWriteToFileEnabled c;
     isMonteCarloMode := isMonteCarloMode c;
     isBenchmarkingMode := isBenchmarkingMode c;
     isTimingEnabled := isTimingEnabled c;
     isOutputJSONMode := isOutputJSONMode c |}.

(** ** The output array and its write log

    [outputDistributions] is the array the calibration routine writes.  The
    model keeps, next to the cells, the sequence of writes in program
    order, so that "written last" and "writes only entry [s]" can be
    stated. *)
Record OutputMemory (D : Type) : Type := {
  cells : list D;
  writes : list (nat * D)
}.
Arguments cells {D} _.
Arguments writes {D} _.

Definition store {D : Type} (i : nat) (v : D) (m : OutputMemory D)
  : OutputMemory D :=
  {| cells := <[i := v]> (cells m);
     writes := writes m ++ [(i, v)] |}.

(** ** [main.c]: the calibration routine *)

Section Calibration.
Context {D : Type} `{DoubleArith D}.
Local Open Scope double_scope.

(** [inputDistributions[i]] *)
Definition readInput (inputDistributions : list D) (i : nat) : D :=
  nth i inputDistributions (dlit 0).

Definition calculateSensorOutput
    (arguments : CommandLineArguments)
    (inputDistributions : list D)
    (outputDistributions : OutputMemory D) : D * OutputMemory D :=
  let calibratedValue := dlit 0 in
  let Vsupply := readInput inputDistributions kInputDistributionIndexVsupply in
  let Vt := readInput inputDistributions kInputDistributionIndexVt in
  let Vrh := readInput inputDistributions kInputDistributionIndexVrh in
  let calculateAllOutputs :=
    Nat.eqb (outputSelect (common arguments)) kOutputDistributionIndexMax in
  let '(calibratedValue, outputDistributions) :=
    if calculateAllOutputs
       || Nat.eqb (outputSelect (common arguments))
                  kOutputDistributionIndexCalibratedRelativeHumidity
    then
      let Rh := kSensorCalibrationConstant1
                + kSensorCalibrationConstant2 * (Vrh / Vsupply) in
      (Rh, store kOutputDistributionIndexCalibratedRelativeHumidity Rh
                 outputDistributions)
    else (calibratedValue, outputDistributions) in
  let '(calibratedValue, outputDistributions) :=
    if calculateAllOutputs
       || Nat.eqb (outputSelect (common arguments))
                  kOutputDistributionIndexCalibratedTemperatureCelcius
    then
      let Tcelcius := kSensorCalibrationConstant3
                      + kSensorCalibrationConstant4 * (Vt / Vsupply) in
      (Tcelcius, store kOutputDistributionIndexCalibratedTemperatureCelcius
                       Tcelcius outputDistributions)
    else (calibratedValue, outputDistributions) in
  let '(calibratedValue, outputDistributions) :=
    if calculateAllOutputs
       || Nat.eqb (outputSelect (common arguments))
                  kOutputDistributionIndexCalibratedTemperatureFahrenheit
    then
      let Tfahrenheit := kSensorCalibrationConstant5
                         + kSensorCalibrationConstant6 * (Vt / Vsupply) in
      (Tfahrenheit,
       store kOutputDistributionIndexCalibratedTemperatureFahrenheit
             Tfahrenheit outputDistributions)
    else (calibratedValue, outputDistributions) in
  (calibratedValue, outputDistributions).
End Calibration.

(** ** [main.c]: the input sampler

    [UxHwDoubleUniformDist] belongs to the execution platform.  It is a
    parameter of the model: a function from the state [R] of the platform's
    random source and the two bounds to the drawn value and the next
    state. *)
Section Sampler.
Context {D : Type} `{DoubleArith D} {R : Type}.
Variable UxHwDoubleUniformDist : R -> D -> D -> D * R.

Definition setInputDistributionsViaUxHwCall
    (rng : R) (inputDistributions : list D) : list D * R :=
  let '(v, rng) :=
    UxHwDoubleUniformDist rng
      kDefaultInputDistributionVrhUniformDistLow
      kDefaultInputDistributionVrhUniformDistHigh in
  let inputDistributions :=
    <[kInputDistributionIndexVrh := v]> inputDistributions in
  let '(v, rng) :=
    UxHwDoubleUniformDist rng
      kDefaultInputDistributionVtUniformDistLow
      kDefaultInputDistributionVtUniformDistHigh in
  let inputDistributions :=
    <[kInputDistributionIndexVt := v]> inputDistributions in
  let '(v, rng) :=
    UxHwDoubleUniformDist rng
      kDefaultInputDistributionVsupplyUniformDistLow
      kDefaultInputDistributionVsupplyUniformDistHigh in
  let inputDistributions :=
    <[kInputDistributionIndexVsupply := v]> inputDistributions in
  (inputDistributions, rng).
End Sampler.

(** ** [utilities.c]: processing of the command line *)

(** Modelled from the spec: the enumeration [CommonConstantReturnType] of
    the common utility routines, whose header is not part of the sources.
    Success is zero and an error is non-zero: [main] continues exactly when
    the result of [getCommandLineArguments] is zero, and returns
    [kCommonConstantReturnTypeError] as the non-zero exit status. *)
Inductive CommonConstantReturnType : Type :=
| kCommonConstantReturnTypeSuccess
| kCommonConstantReturnTypeError.

Definition returnTypeValue (r : CommonConstantReturnType) : Z :=
  match r with
  | kCommonConstantReturnTypeSuccess => 0
  | kCommonConstantReturnTypeError => 1
  end.

Definition EXIT_SUCCESS : Z := 0.

(** The messages the program prints on the diagnostic stream. *)
Inductive Diagnostic : Type :=
| MsgArgumentsPointerIsNull
| MsgParsingFailed
| MsgUsage
| MsgInputFromFileNotSupported
| MsgWriteToFileNotSupportedInMonteCarloMode
| MsgOutputSelectTooLarge (provided max : nat)
| MsgSelectSingleOutput.

(** A call either returns to its caller or ends the process with
    [exit (status)]. *)
Inductive Outcome (A : Type) : Type :=
| Returned (a : A)
| Exited (status : Z).
Arguments Returned {A} a.
Arguments Exited {A} status.

Definition setDefaultCommandLineArguments : CommandLineArguments :=
  {| common :=
       {| outputSelect := 0;
          isOutputSelected := false;
          numberOfMonteCarloIterations := 0;
          isHelpEnabled := false;
          isInputFromFileEnabled := false;
          isWriteToFileEnabled := false;
          isMonteCarloMode := false;
          isBenchmarkingMode := false;
          isTimingEnabled := false;
          isOutputJSONMode := false |} |}.

Section Arguments.
(** [parseArgs] belongs to the common utility routines; it fills the
    common arguments from [argv] and returns zero on success. *)
Variable parseArgs :
  list String.string -> CommonCommandLineArguments ->
  Z * CommonCommandLineArguments.

(** The pointer [arguments] is [None] when it is [NULL]; the result carries
    the structure it points to after the call. *)
Definition getCommandLineArguments
    (argv : list String.string) (arguments : option CommandLineArguments)
  : Outcome (CommonConstantReturnType * option CommandLineArguments)
    * list Diagnostic :=
  match arguments with
  | None =>
      (Returned (kCommonConstantReturnTypeError, None),
       [MsgArgumentsPointerIsNull])
  | Some _ =>
      let arguments := setDefaultCommandLineArguments in
      let '(status, parsed) := parseArgs argv (common arguments) in
      let arguments := {| common := parsed |} in
      if negb (status =? 0)%Z then
        (Returned (kCommonConstantReturnTypeError, Some arguments),
         [MsgParsingFailed; MsgUsage])
      else if isHelpEnabled (common arguments) then
        (Exited EXIT_SUCCESS, [MsgUsage])
      else if isInputFromFileEnabled (common arguments) then
        (Returned (kCommonConstantReturnTypeError, Some arguments),
         [MsgInputFromFileNotSupported])
      else if isWriteToFileEnabled (common arguments)
              && isMonteCarloMode (common arguments) then
        (Returned (kCommonConstantReturnTypeError, Some arguments),
         [MsgWriteToFileNotSupportedInMonteCarloMode])
      else
        let arguments :=
          if negb (isOutputSelected (common arguments))
          then {| common := set_outputSelect kOutputDistributionIndexMax
                                             (common arguments) |}
          else arguments in
        if (kOutputDistributionIndexMax <? outputSelect (common arguments))%nat
        then
          (Returned (kCommonConstantReturnTypeSuccess, Some arguments),
           [MsgOutputSelectTooLarge (outputSelect (common arguments))
                                    kOutputDistributionIndexMax])
        else if (outputSelect (common arguments)
                 =? kOutputDistributionIndexMax)%nat then
          if isBenchmarkingMode (common arguments)
             || isMonteCarloMode (common arguments)
          then
            (Returned (kCommonConstantReturnTypeError, Some arguments),
             [MsgSelectSingleOutput])
          else
            (Returned (kCommonConstantReturnTypeSuccess, Some arguments), [])
        else
          (Returned (kCommonConstantReturnTypeSuccess, Some arguments), [])
  end.
End Arguments.

(** ** [main.c]: the driver *)

(** Modelled from the spec: [checkedMalloc] of the common utility routines,
    called for the sample buffer, which is sized exactly once to the
    iteration count.  A slot is [None] until the program writes it.
    Failure of the allocation ends the process and is not modelled. *)
Definition checkedMalloc {D : Type} (slots : nat) : list (option D) :=
  replicate slots None.

Section Driver.
Context {D : Type} `{DoubleArith D} {R : Type}.
Variable UxHwDoubleUniformDist : R -> D -> D -> D * R.
Variable parseArgs :
  list String.string -> CommonCommandLineArguments ->
  Z * CommonCommandLineArguments.

(** The variables of [main] that the computation loop reads or writes.
    [monteCarloOutputSamples] is [None] while the pointer is [NULL]. *)
Record MainState : Type := {
  rng : R;
  inputDistributions : list D;
  outputDistributions : OutputMemory D;
  calibratedSensorOutput : D;
  monteCarloOutputSamples : option (list (option D))
}.

(** One iteration of the computation loop, with loop counter [i]. *)
Definition loopBody (arguments : CommandLineArguments) (i : nat)
    (st : MainState) : MainState :=
  let '(inputDistributions, rng) :=
    setInputDistributionsViaUxHwCall UxHwDoubleUniformDist
      (rng st) (inputDistributions st) in
  let '(calibratedSensorOutput, outputDistributions) :=
    calculateSensorOutput arguments inputDistributions
      (outputDistributions st) in
  {| rng := rng;
     inputDistributions := inputDistributions;
     outputDistributions := outputDistributions;
     calibratedSensorOutput := calibratedSensorOutput;
     monteCarloOutputSamples :=
       if isMonteCarloMode (common arguments)
       then (fun samples => <[i := Some calibratedSensorOutput]> samples)
              <$> monteCarloOutputSamples st
       else monteCarloOutputSamples st |}.

(** [for (size_t i = ...; i < numberOfMonteCarloIterations; i++)] with
    [remaining] iterations left to run. *)
Fixpoint computationLoop (arguments : CommandLineArguments)
    (remaining i : nat) (st : MainState) : MainState :=
  match remaining with
  | O => st
  | S remaining =>
      computationLoop arguments remaining (S i) (loopBody arguments i st)
  end.

(** [main] either ends before the computation with an exit status, or
    reaches post-processing and reporting with the state the loop left.
    Post-processing, reporting and the release of the buffer are not
    modelled. *)
Inductive MainResult : Type :=
| Terminated (status : Z) (stderr : list Diagnostic)
| Computed (stderr : list Diagnostic) (arguments : CommandLineArguments)
           (st : MainState).

(** The frame of [main] when the loop starts.  [indeterminate k] is the
    indeterminate initial value of the [k]-th uninitialised double of the
    frame: the two arrays and [calibratedSensorOutput]. *)
Definition initialMainState (arguments : CommandLineArguments) (rng0 : R)
    (indeterminate : nat -> D) : MainState :=
  {| rng := rng0;
     inputDistributions :=
       [indeterminate 0; indeterminate 1; indeterminate 2];
     outputDistributions :=
       {| cells := [indeterminate 3; indeterminate 4; indeterminate 5];
          writes := [] |};
     calibratedSensorOutput := indeterminate 6;
     monteCarloOutputSamples :=
       if isMonteCarloMode (common arguments)
       then Some (checkedMalloc
                    (numberOfMonteCarloIterations (common arguments)))
       else None |}.

Definition main (argv : list String.string) (rng0 : R)
    (indeterminate : nat -> D) : MainResult :=
  let arguments := setDefaultCommandLineArguments in
  match getCommandLineArguments parseArgs argv (Some arguments) with
  | (Exited status, stderr) => Terminated status stderr
  | (Returned (_, None), stderr) =>
      Terminated (returnTypeValue kCommonConstantReturnTypeError) stderr
  | (Returned (result, Some arguments), stderr) =>
      if negb (returnTypeValue result =? 0)%Z then
        Terminated (returnTypeValue kCommonConstantReturnTypeError) stderr
      else
        Computed stderr arguments
          (computationLoop arguments
             (numberOfMonteCarloIterations (common arguments)) 0
             (initialMainState arguments rng0 indeterminate))
  end.
End Driver.

(** ** The statistics aggregator *)

Record MeanAndVariance (D : Type) : Type := {
  mean : D;
  variance : D
}.
Arguments mean {D} _.
Arguments variance {D} _.

Inductive AggregationError : Type :=
| EmptySampleBuffer.

Section Aggregator.
Context {D : Type} `{DoubleArith D}.
Local Open Scope double_scope.

(** [(double) n] for a [size_t] value [n]. *)
Definition doubleOfSize (n : nat) : D := dlit (inject_Z (Z.of_nat n)).

(** Modelled from the spec: [calculateMeanAndVarianceOfDoubleSamples] of
    the common utility routines, which [main] calls on the sample buffer
    and whose definition is not part of the sources.  Following section 4.4
    of the specification: an empty buffer is rejected before any division
    by the sample count; otherwise a first pass accumulates the sum and
    divides it by the count to obtain the mean, and a second pass
    accumulates the squared deviations from that mean and divides them by
    the count (population variance). *)
Definition calculateMeanAndVarianceOfDoubleSamples
    (dataArray : list D) (dataArraySize : nat)
  : AggregationError + MeanAndVariance D :=
  if (dataArraySize =? 0)%nat then inl EmptySampleBuffer
  else
    let samples := take dataArraySize dataArray in
    let sum := fold_left (fun sum x => sum + x) samples (dlit 0) in
    let mean := sum / doubleOfSize dataArraySize in
    let sumOfSquaredDeviations :=
      fold_left (fun acc x => acc + (x - mean) * (x - mean))
                samples (dlit 0) in
    inr {| mean := mean;
           variance := sumOfSquaredDeviations / doubleOfSize dataArraySize |}.
End Aggregator.

(** ** Vocabulary of the specification *)

(** The outputs an [OutputSelector] requests, in the order the calibration
    routine handles them: the selector [kOutputDistributionIndexMax] stands
    for "all of the above". *)
Definition requestedOutputs (select : nat) : list nat :=
  if (select =? kOutputDistributionIndexMax)%nat then
    [kOutputDistributionIndexCalibratedRelativeHumidity;
     kOutputDistributionIndexCalibratedTemperatureCelcius;
     kOutputDistributionIndexCalibratedTemperatureFahrenheit]
  else if (select <? kOutputDistributionIndexMax)%nat then [select]
  else [].

(** Arithmetic average and population variance of a list of rationals, as
    the specification words them. *)
Definition Qsum (xs : list Q) : Q := fold_right Qplus 0%Q xs.

Definition arithmeticAverage (xs : list Q) : Q :=
  (Qsum xs / inject_Z (Z.of_nat (length xs)))%Q.

Definition populationVariance (xs : list Q) : Q :=
  (Qsum (map (fun x => (x - arithmeticAverage xs) * (x - arithmeticAverage xs)) xs)
   / inject_Z (Z.of_nat (length xs)))%Q.

(** The selector is "all outputs" when no output was selected or the
    selected output is [kOutputDistributionIndexMax]. *)
Definition allOutputsSelected (parsed : CommonCommandLineArguments) : Prop :=
  isOutputSelected parsed = false
  \/ outputSelect parsed = kOutputDistributionIndexMax.

(** The combinations of options the specification declares incompatible. *)
Definition incompatibleCombination (parsed : CommonCommandLineArguments)
  : Prop :=
  (allOutputsSelected parsed
   /\ (isBenchmarkingMode parsed = true \/ isMonteCarloMode parsed = true))
  \/ (isWriteToFileEnabled parsed = true /\ isMonteCarloMode parsed = true).

(** Arguments that select output [select] and leave every mode off. *)
Definition selecting (select : nat) : CommandLineArguments :=
  {| common := set_outputSelect select (common setDefaultCommandLineArguments) |}.

(** ** Fixtures for the worked instances *)

(** A parser that recognised the options recorded in [parsed]. *)
Definition parsedAs (parsed : CommonCommandLineArguments)
  : list String.string -> CommonCommandLineArguments ->
    Z * CommonCommandLineArguments :=
  fun _ _ => (0%Z, parsed).

(** A uniform generator over the rationals, driven by a linear
    congruential sequence on 31 bits. *)
Definition lcgNext (seed : Z) : Z := ((1103515245 * seed + 12345) mod 2 ^ 31)%Z.

Definition lcgUniform (seed : Z) (low high : Q) : Q * Z :=
  let seed := lcgNext seed in
  ((low + (high - low) * (seed # 2 ^ 31))%Q, seed).

(** Options of a Monte Carlo run of [iterations] iterations on output
    [select]. *)
Definition monteCarloOptions (select iterations : nat)
  : CommonCommandLineArguments :=
  {| outputSelect := select;
     isOutputSelected := true;
     numberOfMonteCarloIterations := iterations;
     isHelpEnabled := false;
     isInputFromFileEnabled := false;
     isWriteToFileEnabled := false;
     isMonteCarloMode := true;
     isBenchmarkingMode := false;
     isTimingEnabled := false;
     isOutputJSONMode := false |}.

(** Options with the help flag and benchmarking mode set and no output
    selected. *)
Definition helpAndBenchmarkingOptions : CommonCommandLineArguments :=
  {| outputSelect := 0;
     isOutputSelected := false;
     numberOfMonteCarloIterations := 1;
     isHelpEnabled := true;
     isInputFromFileEnabled := false;
     isWriteToFileEnabled := false;
     isMonteCarloMode := false;
     isBenchmarkingMode := true;
     isTimingEnabled := false;
     isOutputJSONMode := false |}.

(** Options with benchmarking mode set and no output selected. *)
Definition benchmarkingOptions : CommonCommandLineArguments :=
  {| outputSelect := 0;
     isOutputSelected := false;
     numberOfMonteCarloIterations := 1;
     isHelpEnabled := false;
     isInputFromFileEnabled := false;
     isWriteToFileEnabled := false;
     isMonteCarloMode := false;
     isBenchmarkingMode := true;
     isTimingEnabled := false;
     isOutputJSONMode := false |}.

(** Options of [-S 4]: output 4 selected, one execution, no mode set. *)
Definition selectFourOptions : CommonCommandLineArguments :=
  {| outputSelect := 4;
     isOutputSelected := true;
     numberOfMonteCarloIterations := 1;
     isHelpEnabled := false;
     isInputFromFileEnabled := false;
     isWriteToFileEnabled := false;
     isMonteCarloMode := false;
     isBenchmarkingMode := false;
     isTimingEnabled := false;
     isOutputJSONMode := false |}.

(** The calibration formula of output [i], in the arithmetic of the
    program. *)
Definition calibrationFormula {D : Type} `{DoubleArith D}
    (i : nat) (Vrh Vt Vsupply : D) : D :=
  match i with
  | 0 => (dlit (-12.5) + dlit 125 * (Vrh / Vsupply))%D
  | 1 => (dlit (-66.875) + dlit 218.75 * (Vt / Vsupply))%D
  | _ => (dlit (-88.375) + dlit 393.75 * (Vt / Vsupply))%D
  end.

(** The three input voltages lie in the default ranges of
    [utilities-config.h]. *)
Definition inDefaultRanges (Vrh Vt Vsupply : Q) : Prop :=
  (2.3 <= Vrh <= 2.7)%Q /\ (2.3 <= Vt <= 2.7)%Q /\ (4.8 <= Vsupply <= 5.4)%Q.

(** The interval output [i] ranges over when the inputs range over the
    default ranges: the formula is increasing in the measured voltage and
    decreasing in the supply voltage. *)
Definition calibratedRange (i : nat) : Q * Q :=
  (calibrationFormula i 2.3 2.3 5.4, calibrationFormula i 2.7 2.7 4.8)%Q.

Definition inCalibratedRange (i : nat) (v : Q) : Prop :=
  (fst (calibratedRange i) <= v <= snd (calibratedRange i))%Q.

(** ** [main.c] and [utilities.c]: reporting *)

Import String.StringSyntax.
Delimit Scope string_scope with string.

(** [outputVariableNames] and [unitsOfMeasurement] of [main]. *)
Definition outputVariableNames : list String.string :=
  ["Calibrated Relative Humidity";
   "Calibrated Temperature (in Celsius)";
   "Calibrated Temperature (in Farenheit)"]%string.

Definition unitsOfMeasurement : list String.string :=
  ["%"; "Celcius"; "Fahrenheit"]%string.

(** [strings[i]] for an array of C strings.  The C program indexes the
    two arrays of [main] with the selector; for an index outside the array
    the C read is undefined and the model yields the empty string, so
    statements about such reads carry [outputSelect <= kOutputDistributionIndexMax]
    or are about paths that do not index. *)
Definition stringAt (strings : list String.string) (i : nat) : String.string :=
  nth i strings ""%string.

(** What one call of [printCalibratedValueAndProbabilities] prints: the
    description, the value and the unit of measurement, then the four
    probabilities that the output is 5, 50, 100 and 200 percent or more
    smaller than the value and the four that it is as much greater.  The
    rounding of the [printf] conversions is not part of the model. *)
Record CalibratedReport (D : Type) : Type := {
  reportDescription : String.string;
  reportValue : D;
  reportUnits : String.string;
  smallerProbabilities : list D;
  greaterProbabilities : list D
}.
Arguments reportDescription {D} _.
Arguments reportValue {D} _.
Arguments reportUnits {D} _.
Arguments smallerProbabilities {D} _.
Arguments greaterProbabilities {D} _.

Section CalibratedValueReport.
Context {D : Type} `{DoubleArith D}.
Local Open Scope double_scope.

(** [UxHwDoubleProbabilityGT (value, cutoff)] belongs to the execution
    platform: the probability that [value] exceeds [cutoff]. *)
Variable UxHwDoubleProbabilityGT : D -> D -> D.

Definition printCalibratedValueAndProbabilities
    (calibratedSensorOutput : D)
    (variableDescription unitsOfMeasurement : String.string)
  : CalibratedReport D :=
  {| reportDescription := variableDescription;
     reportValue := calibratedSensorOutput;
     reportUnits := unitsOfMeasurement;
     smallerProbabilities :=
       [dlit 1 - UxHwDoubleProbabilityGT calibratedSensorOutput
                   (calibratedSensorOutput * (dlit 1 - dlit 0.05));
        dlit 1 - UxHwDoubleProbabilityGT calibratedSensorOutput
                   (calibratedSensorOutput * (dlit 1 - dlit 0.50));
        dlit 1 - UxHwDoubleProbabilityGT calibratedSensorOutput
                   (calibratedSensorOutput * (dlit 1 - dlit 1.00));
        dlit 1 - UxHwDoubleProbabilityGT calibratedSensorOutput
                   (calibratedSensorOutput * (dlit 1 - dlit 2.00))];
     greaterProbabilities :=
       [UxHwDoubleProbabilityGT calibratedSensorOutput
          (dlit 1.05 * calibratedSensorOutput);
        UxHwDoubleProbabilityGT calibratedSensorOutput
          (dlit 1.50 * calibratedSensorOutput);
        UxHwDoubleProbabilityGT calibratedSensorOutput
          (dlit 2.00 * calibratedSensorOutput);
        UxHwDoubleProbabilityGT calibratedSensorOutput
          (dlit 3.00 * calibratedSensorOutput)] |}.
End CalibratedValueReport.

(** *** JSON output

    [JSONVariable] is declared in the common utility routines, which are not
    part of the sources; the record has the fields that
    [populateJSONVariableStruct] writes.  The member [values.asDouble] is a
    pointer to doubles: null, or into the sample buffer, or into
    [outputDistributions]. *)
Inductive DoublePointer : Type :=
| NullPointer
| SamplesPointer (offset : nat)
| OutputsPointer (offset : nat).

(** [&pointer[i]] *)
Definition pointerAt (pointer : DoublePointer) (i : nat) : DoublePointer :=
  match pointer with
  | NullPointer => NullPointer
  | SamplesPointer offset => SamplesPointer (offset + i)
  | OutputsPointer offset => OutputsPointer (offset + i)
  end.

Inductive JSONVariableType : Type :=
| kJSONVariableTypeDouble.

Record JSONVariable : Type := {
  variableSymbol : String.string;
  variableDescription : String.string;
  values : DoublePointer;
  type : JSONVariableType;
  size : nat
}.

(** [snprintf (buffer, size, ...)] where the formatted text is [text]: at
    most [size - 1] characters of the text are stored; with [size] zero the
    buffer is left as it is. *)
Definition snprintf (buffer : String.string) (size : nat)
    (text : String.string) : String.string :=
  match size with
  | O => buffer
  | S limit => String.substring 0 limit text
  end.

(** The conversion [%u] of an index. *)
Definition decimalOfNat (n : nat) : String.string :=
  DecimalString.NilZero.string_of_uint (Nat.to_uint n).

Section JSONOutput.
(** The two buffer sizes are constants of the common utility routines. *)
Variable kCommonConstantMaxCharsPerJSONVariableSymbol : nat.
Variable kCommonConstantMaxCharsPerJSONVariableDescription : nat.

(** [jsonVariable] is the structure before the call, the result the
    structure after it. *)
Definition populateJSONVariableStruct
    (jsonVariable : JSONVariable)
    (outputVariableValues : DoublePointer)
    (outputVariableDescription : String.string)
    (outputSelect : nat)
    (numberOfOutputVariableValues : nat) : JSONVariable :=
  {| variableSymbol :=
       snprintf (variableSymbol jsonVariable)
         kCommonConstantMaxCharsPerJSONVariableSymbol
         (String.append "outputDistributions["
            (String.append (decimalOfNat outputSelect) "]"));
     variableDescription :=
       snprintf (variableDescription jsonVariable)
         kCommonConstantMaxCharsPerJSONVariableDescription
         outputVariableDescription;
     values := outputVariableValues;
     type := kJSONVariableTypeDouble;
     size := numberOfOutputVariableValues |}.

(** The loop of [printJSONFormattedOutput], with [remaining] iterations
    left and loop variable [outputSelect].  An index outside
    [jsonVariables] is outside the C array as well: the C write is
    undefined there and the model leaves the array as it is.  This happens
    only for a selector above [kOutputDistributionIndexMax]; the model
    describes the C function for [outputSelect <= kOutputDistributionIndexMax]
    and every statement about it carries this bound. *)
Fixpoint populateJSONVariables
    (arguments : CommandLineArguments)
    (monteCarloOutputSamples outputDistributions : DoublePointer)
    (outputVariableDescriptions : list String.string)
    (remaining outputSelect : nat)
    (jsonVariables : list JSONVariable) : list JSONVariable :=
  match remaining with
  | O => jsonVariables
  | S remaining =>
      let pointerToOutputVariable :=
        if isMonteCarloMode (common arguments)
        then monteCarloOutputSamples
        else pointerAt outputDistributions outputSelect in
      let jsonVariables :=
        match jsonVariables !! outputSelect with
        | Some jsonVariable =>
            <[outputSelect :=
                populateJSONVariableStruct jsonVariable
                  pointerToOutputVariable
                  (stringAt outputVariableDescriptions outputSelect)
                  outputSelect
                  (numberOfMonteCarloIterations (common arguments))]>
              jsonVariables
        | None => jsonVariables
        end in
      populateJSONVariables arguments monteCarloOutputSamples
        outputDistributions outputVariableDescriptions
        remaining (S outputSelect) jsonVariables
  end.

(** The call [printJSONVariables (&jsonVariables[lower], count, title)]
    that ends [printJSONFormattedOutput]: the variables handed over and
    the title.  [indeterminate k] is the indeterminate initial content of
    [jsonVariables[k]]. *)
Definition printJSONFormattedOutput
    (arguments : CommandLineArguments)
    (monteCarloOutputSamples outputDistributions : DoublePointer)
    (outputVariableDescriptions : list String.string)
    (indeterminate : nat -> JSONVariable)
  : list JSONVariable * String.string :=
  let jsonVariables := [indeterminate 0; indeterminate 1; indeterminate 2] in
  let '(outputSelectLowerBound, outputSelectUpperBound) :=
    if (outputSelect (common arguments) =? kOutputDistributionIndexMax)%nat
    then (0, kOutputDistributionIndexMax)
    else (outputSelect (common arguments),
          outputSelect (common arguments) + 1) in
  let jsonVariables :=
    populateJSONVariables arguments monteCarloOutputSamples
      outputDistributions outputVariableDescriptions
      (outputSelectUpperBound - outputSelectLowerBound)
      outputSelectLowerBound jsonVariables in
  (take (outputSelectUpperBound - outputSelectLowerBound)
        (drop outputSelectLowerBound jsonVariables),
   "SHT4xARP Sensor Calibration Use Case"%string).
End JSONOutput.

(** The doubles a reader finds behind [values] and [size] of a JSON
    variable, given the sample buffer and the output array. *)
Definition readDoubles {D : Type} (variable : JSONVariable)
    (samples : list (option D)) (outputs : list D) : list (option D) :=
  match values variable with
  | NullPointer => []
  | SamplesPointer offset => take (size variable) (drop offset samples)
  | OutputsPointer offset =>
      take (size variable) (drop offset (map Some outputs))
  end.

(** *** The reporting phase of [main] *)

Section Reporting.
Context {D : Type} `{DoubleArith D} {R : Type}.
Local Open Scope double_scope.

(** Functions of the platform and of the common utility routines that the
    reporting phase calls: the probability query, the conversion
    [(uint64_t) x] of a double, the CSV writer with its return code, and
    the aggregation [calculateMeanAndVarianceOfDoubleSamples
    (monteCarloOutputSamples, numberOfMonteCarloIterations)] of the sample
    buffer. *)
Variable UxHwDoubleProbabilityGT : D -> D -> D.
Variable doubleToUint64 : D -> Z.
Variable writeOutputDoubleDistributionsToCSV :
  CommonCommandLineArguments -> list D -> list String.string -> nat -> Z.
Variable meanAndVarianceOfSamples :
  option (list (option D)) -> nat -> MeanAndVariance D.
Variable kCommonConstantMaxCharsPerJSONVariableSymbol : nat.
Variable kCommonConstantMaxCharsPerJSONVariableDescription : nat.
Variable UxHwDoubleUniformDist : R -> D -> D -> D * R.
Variable parseArgs :
  list String.string -> CommonCommandLineArguments ->
  Z * CommonCommandLineArguments.

(** What the program sends to the standard output and to files, in
    program order. *)
Inductive OutputEvent : Type :=
| BenchmarkLine (calibratedSensorOutput : D) (microseconds : Z)
| CalibratedValueReport (report : CalibratedReport D)
| JSONOutput (variables : list JSONVariable) (title : String.string)
| TimingLine (cpuTimeUsedSeconds : D)
| CSVFile (outputVariables : list D) (names : list String.string)
          (count : nat)
| MonteCarloDataFile (samples : option (list (option D))) (microseconds : Z)
                     (count : nat).

(** [outputDistributions[i]] *)
Definition readOutput (outputDistributions : list D) (i : nat) : D :=
  nth i outputDistributions (dlit 0).

(** The end of [main]: saving the Monte Carlo samples, then [return 0]. *)
Definition saveAndReturn (arguments : CommandLineArguments)
    (monteCarloOutputSamples : option (list (option D)))
    (cpuTimeUsedSeconds : D) (events : list OutputEvent)
  : list OutputEvent * Z :=
  (events
   ++ (if isMonteCarloMode (common arguments)
       then [MonteCarloDataFile monteCarloOutputSamples
               (doubleToUint64 (cpuTimeUsedSeconds * dlit 1000000))
               (numberOfMonteCarloIterations (common arguments))]
       else []),
   0%Z).

(** [main] from the benchmarking test to its end: the events and the exit
    status.  [indeterminate] gives the initial content of the local array
    of [printJSONFormattedOutput].  Outside benchmarking mode the C program
    indexes [outputVariableNames], [unitsOfMeasurement] and [jsonVariables]
    with the selector: the model describes it for
    [outputSelect <= kOutputDistributionIndexMax], which statements about
    that branch assume; above the maximum the C behaviour is undefined. *)
Definition reportResults (arguments : CommandLineArguments)
    (calibratedSensorOutput : D) (outputDistributions : list D)
    (monteCarloOutputSamples : option (list (option D)))
    (cpuTimeUsedSeconds : D) (indeterminate : nat -> JSONVariable)
  : list OutputEvent * Z :=
  if isBenchmarkingMode (common arguments) then
    saveAndReturn arguments monteCarloOutputSamples cpuTimeUsedSeconds
      [BenchmarkLine calibratedSensorOutput
         (doubleToUint64 (cpuTimeUsedSeconds * dlit 1000000))]
  else
    let results :=
      if negb (isOutputJSONMode (common arguments)) then
        if (outputSelect (common arguments)
            =? kOutputDistributionIndexMax)%nat
        then
          map (fun i =>
                 CalibratedValueReport
                   (printCalibratedValueAndProbabilities
                      UxHwDoubleProbabilityGT
                      (readOutput outputDistributions i)
                      (stringAt outputVariableNames i)
                      (stringAt unitsOfMeasurement i)))
              (seq 0 kOutputDistributionIndexMax)
        else
          [CalibratedValueReport
             (printCalibratedValueAndProbabilities
                UxHwDoubleProbabilityGT
                calibratedSensorOutput
                (stringAt outputVariableNames
                   (outputSelect (common arguments)))
                (stringAt unitsOfMeasurement
                   (outputSelect (common arguments))))]
      else
        let '(variables, title) :=
          printJSONFormattedOutput
            kCommonConstantMaxCharsPerJSONVariableSymbol
            kCommonConstantMaxCharsPerJSONVariableDescription
            arguments
            (match monteCarloOutputSamples with
             | Some _ => SamplesPointer 0
             | None => NullPointer
             end)
            (OutputsPointer 0) outputVariableNames indeterminate in
        [JSONOutput variables title] in
    let timing :=
      if isTimingEnabled (common arguments)
      then [TimingLine cpuTimeUsedSeconds] else [] in
    if isWriteToFileEnabled (common arguments) then
      let events :=
        results ++ timing
        ++ [CSVFile outputDistributions outputVariableNames
              kOutputDistributionIndexMax] in
      if negb (writeOutputDoubleDistributionsToCSV (common arguments)
                 outputDistributions outputVariableNames
                 kOutputDistributionIndexMax =? 0)%Z
      then (events, returnTypeValue kCommonConstantReturnTypeError)
      else saveAndReturn arguments monteCarloOutputSamples
             cpuTimeUsedSeconds events
    else
      saveAndReturn arguments monteCarloOutputSamples cpuTimeUsedSeconds
        (results ++ timing).

(** The whole of [main]: diagnostics, output events and exit status.
    [elapsed] is the time the two calls of [clock] measure, in seconds;
    [cpuTimeUsedSeconds] is assigned only when timing or benchmarking is
    on and is [indeterminate 7] otherwise. *)
Definition mainWithReport (argv : list String.string) (rng0 : R)
    (indeterminate : nat -> D)
    (indeterminateVariables : nat -> JSONVariable) (elapsed : D)
  : list Diagnostic * list OutputEvent * Z :=
  match main UxHwDoubleUniformDist parseArgs argv rng0 indeterminate with
  | Terminated status stderr => (stderr, [], status)
  | Computed stderr arguments st =>
      let calibratedSensorOutput :=
        if isMonteCarloMode (common arguments)
        then mean (meanAndVarianceOfSamples (monteCarloOutputSamples st)
                     (numberOfMonteCarloIterations (common arguments)))
        else calibratedSensorOutput st in
      let cpuTimeUsedSeconds :=
        if isTimingEnabled (common arguments)
           || isBenchmarkingMode (common arguments)
        then elapsed else indeterminate 7 in
      let '(events, status) :=
        reportResults arguments calibratedSensorOutput
          (cells (outputDistributions st)) (monteCarloOutputSamples st)
          cpuTimeUsedSeconds indeterminateVariables in
      (stderr, events, status)
  end.
End Reporting.

(** A point value: it exceeds exactly the cutoffs below it. *)
Definition pointProbabilityGT (value cutoff : Q) : Q :=
  if Qle_bool value cutoff then 0%Q else 1%Q.

(** Options selecting output [select] for [iterations] executions, every
    mode off. *)
Definition plainOptions (select iterations : nat)
  : CommonCommandLineArguments :=
  {| outputSelect := select;
     isOutputSelected := true;
     numberOfMonteCarloIterations := iterations;
     isHelpEnabled := false;
     isInputFromFileEnabled := false;
     isWriteToFileEnabled := false;
     isMonteCarloMode := false;
     isBenchmarkingMode := false;
     isTimingEnabled := false;
     isOutputJSONMode := false |}.

(** A JSON variable with empty strings, standing for the indeterminate
    content of a local structure. *)
Definition blankVariable : JSONVariable :=
  {| variableSymbol := ""%string;
     variableDescription := ""%string;
     values := NullPointer;
     type := kJSONVariableTypeDouble;
     size := 0 |}.

(** Options of a benchmarking run on output [select] with writing to a
    file enabled. *)
Definition benchmarkingFileOptions (select : nat)
  : CommonCommandLineArguments :=
  {| outputSelect := select;
     isOutputSelected := true;
     numberOfMonteCarloIterations := 1;
     isHelpEnabled := false;
     isInputFromFileEnabled := false;
     isWriteToFileEnabled := true;
     isMonteCarloMode := false;
     isBenchmarkingMode := true;
     isTimingEnabled := false;
     isOutputJSONMode := false |}.

(** Options of a plain run on output [select] with writing to a file
    enabled. *)
Definition fileOptions (select : nat) : CommonCommandLineArguments :=
  {| outputSelect := select;
     isOutputSelected := true;
     numberOfMonteCarloIterations := 1;
     isHelpEnabled := false;
     isInputFromFileEnabled := false;
     isWriteToFileEnabled := true;
     isMonteCarloMode := false;
     isBenchmarkingMode := false;
     isTimingEnabled := false;
     isOutputJSONMode := false |}.

(** Stand-ins for the platform in the worked instances: truncation of a
    rational, a CSV writer that succeeds, and an aggregation that is not
    consulted outside Monte Carlo mode. *)
Definition truncateQ (x : Q) : Z := (Qnum x / Zpos (Qden x))%Z.

Definition csvWriterSucceeds
  : CommonCommandLineArguments -> list Q -> list String.string -> nat -> Z :=
  fun _ _ _ _ => 0%Z.

Definition zeroMeanAndVariance
  : option (list (option Q)) -> nat -> MeanAndVariance Q :=
  fun _ _ => {| mean := 0%Q; variance := 0%Q |}.

(** * Properties of the calibration routine *)

Section CalibrationFacts.
Context {D : Type} `{DoubleArith D}.
Local Open Scope double_scope.

Lemma calculateSensorOutput_all (arguments : CommandLineArguments)
    (Vrh Vt Vsupply : D) (mem : OutputMemory D) :
  outputSelect (common arguments) = kOutputDistributionIndexMax ->
  let Rh := dlit (-12.5) + dlit 125 * (Vrh / Vsupply) in
  let Tcelcius := dlit (-66.875) + dlit 218.75 * (Vt / Vsupply) in
  let Tfahrenheit := dlit (-88.375) + dlit 393.75 * (Vt / Vsupply) in
  calculateSensorOutput arguments [Vrh; Vt; Vsupply] mem
  = (Tfahrenheit, store 2 Tfahrenheit (store 1 Tcelcius (store 0 Rh mem))).
Proof.
  intros Hsel. unfold calculateSensorOutput. rewrite Hsel. reflexivity.
Qed.

Lemma calculateSensorOutput_humidity (arguments : CommandLineArguments)
    (Vrh Vt Vsupply : D) (mem : OutputMemory D) :
  outputSelect (common arguments)
  = kOutputDistributionIndexCalibratedRelativeHumidity ->
  let Rh := dlit (-12.5) + dlit 125 * (Vrh / Vsupply) in
  calculateSensorOutput arguments [Vrh; Vt; Vsupply] mem
  = (Rh, store 0 Rh mem).
Proof.
  intros Hsel. unfold calculateSensorOutput. rewrite Hsel. reflexivity.
Qed.

Lemma calculateSensorOutput_celcius (arguments : CommandLineArguments)
    (Vrh Vt Vsupply : D) (mem : OutputMemory D) :
  outputSelect (common arguments)
  = kOutputDistributionIndexCalibratedTemperatureCelcius ->
  let Tcelcius := dlit (-66.875) + dlit 218.75 * (Vt / Vsupply) in
  calculateSensorOutput arguments [Vrh; Vt; Vsupply] mem
  = (Tcelcius, store 1 Tcelcius mem).
Proof.
  intros Hsel. unfold calculateSensorOutput. rewrite Hsel. reflexivity.
Qed.

Lemma calculateSensorOutput_fahrenheit (arguments : CommandLineArguments)
    (Vrh Vt Vsupply : D) (mem : OutputMemory D) :
  outputSelect (common arguments)
  = kOutputDistributionIndexCalibratedTemperatureFahrenheit ->
  let Tfahrenheit := dlit (-88.375) + dlit 393.75 * (Vt / Vsupply) in
  calculateSensorOutput arguments [Vrh; Vt; Vsupply] mem
  = (Tfahrenheit, store 2 Tfahrenheit mem).
Proof.
  intros Hsel. unfold calculateSensorOutput. rewrite Hsel. reflexivity.
Qed.

(** A selector above [kOutputDistributionIndexMax] requests nothing: the
    routine returns its initial [0.0] and leaves the memory as it was. *)
Lemma calculateSensorOutput_out_of_range (arguments : CommandLineArguments)
    (inputs : list D) (mem : OutputMemory D) :
  kOutputDistributionIndexMax < outputSelect (common arguments) ->
  calculateSensorOutput arguments inputs mem = (dlit 0, mem).
Proof.
  intros Hsel. unfold calculateSensorOutput.
  destruct (outputSelect (common arguments)) as [|[|[|[|n]]]];
    unfold kOutputDistributionIndexMax in Hsel; try lia.
  reflexivity.
Qed.
End CalibrationFacts.

(** C1.  The calibration routine computes, in the arithmetic of the
    program, relative humidity [-12.5 + 125 * (Vrh / Vsupply)], temperature
    in Celsius [-66.875 + 218.75 * (Vt / Vsupply)] and temperature in
    Fahrenheit [-88.375 + 393.75 * (Vt / Vsupply)] for each output the
    selector requests, for every input sample (so in particular for every
    sample with non-zero supply voltage).  On binary64 doubles and the
    sample [{Vrh = 2.5, Vt = 2.5, Vsupply = 5.1}] the three stored outputs
    are finite and within [1e-6] of the exact rational values of the three
    formulas. *)
Theorem calculateSensorOutput_formulas :
  (forall (D : Type) (A : DoubleArith D) (arguments : CommandLineArguments)
          (Vrh Vt Vsupply : D) (mem : OutputMemory D),
      length (cells mem) = kOutputDistributionIndexMax ->
      let select := outputSelect (common arguments) in
      let mem' := snd (calculateSensorOutput arguments [Vrh; Vt; Vsupply] mem) in
      (In kOutputDistributionIndexCalibratedRelativeHumidity
          (requestedOutputs select) ->
       cells mem' !! kOutputDistributionIndexCalibratedRelativeHumidity
       = Some (dlit (-12.5) + dlit 125 * (Vrh / Vsupply))%D)
      /\ (In kOutputDistributionIndexCalibratedTemperatureCelcius
             (requestedOutputs select) ->
          cells mem' !! kOutputDistributionIndexCalibratedTemperatureCelcius
          = Some (dlit (-66.875) + dlit 218.75 * (Vt / Vsupply))%D)
      /\ (In kOutputDistributionIndexCalibratedTemperatureFahrenheit
             (requestedOutputs select) ->
          cells mem' !! kOutputDistributionIndexCalibratedTemperatureFahrenheit
          = Some (dlit (-88.375) + dlit 393.75 * (Vt / Vsupply))%D))
  /\ (forall (arguments : CommandLineArguments) (mem : OutputMemory float),
         length (cells mem) = kOutputDistributionIndexMax ->
         outputSelect (common arguments) = kOutputDistributionIndexMax ->
         exists Rh Tcelcius Tfahrenheit : float,
           cells (snd (calculateSensorOutput arguments
                         [dlit 2.5; dlit 2.5; dlit 5.1] mem))
           = [Rh; Tcelcius; Tfahrenheit]
           /\ within_tolerance Rh (-12.5 + 125 * (2.5 / 5.1)) 1e-6 = true
           /\ within_tolerance Tcelcius (-66.875 + 218.75 * (2.5 / 5.1)) 1e-6
              = true
           /\ within_tolerance Tfahrenheit (-88.375 + 393.75 * (2.5 / 5.1)) 1e-6
              = true).
Proof.
  split.
  - intros D A arguments Vrh Vt Vsupply [cs ws] Hlen select mem'.
    destruct cs as [|a [|b [|c [|d cs]]]]; try discriminate Hlen.
    subst mem' select. unfold calculateSensorOutput.
    destruct (outputSelect (common arguments)) as [|[|[|[|n]]]]; cbn;
      repeat split; intros Hin; try reflexivity;
      repeat (destruct Hin as [Hin|Hin]; try discriminate Hin);
      try contradiction.
  - intros arguments [cs ws] Hlen Hsel.
    destruct cs as [|a [|b [|c [|d cs]]]]; try discriminate Hlen.
    rewrite calculateSensorOutput_all by exact Hsel. cbn [snd store cells].
    do 3 eexists. split; [reflexivity|].
    repeat split; vm_compute; reflexivity.
Qed.

Lemma calculateSensorOutput_formulas_witness :
  length (cells {| cells := [0; 0; 0]%Q; writes := [] |})
  = kOutputDistributionIndexMax
  /\ cells (snd (calculateSensorOutput
                   (selecting kOutputDistributionIndexCalibratedTemperatureCelcius)
                   [2.5; 2.5; 5.1]%Q {| cells := [0; 0; 0]%Q; writes := [] |}))
     !! kOutputDistributionIndexCalibratedTemperatureCelcius
     = Some (-66.875 + 218.75 * (2.5 / 5.1))%Q.
Proof.
  split; [reflexivity|].
  apply (proj1 (proj2 (proj1 calculateSensorOutput_formulas Q Q_arith
           (selecting kOutputDistributionIndexCalibratedTemperatureCelcius)
           2.5%Q 2.5%Q 5.1%Q {| cells := [0; 0; 0]%Q; writes := [] |}
           eq_refl))).
  cbn. left. reflexivity.
Defined.

(** C10.  For every single-output selector [s] (relative humidity,
    temperature in Celsius, temperature in Fahrenheit) and every input
    sample, the routine performs exactly one write, to entry [s] of
    [outputDistributions]; the array keeps its length and every other entry
    keeps its value. *)
Theorem calculateSensorOutput_frame :
  forall (D : Type) (A : DoubleArith D) (arguments : CommandLineArguments)
         (Vrh Vt Vsupply : D) (mem : OutputMemory D),
    outputSelect (common arguments) < kOutputDistributionIndexMax ->
    let s := outputSelect (common arguments) in
    let result := calculateSensorOutput arguments [Vrh; Vt; Vsupply] mem in
    writes (snd result) = writes mem ++ [(s, fst result)]
    /\ length (cells (snd result)) = length (cells mem)
    /\ (forall j : nat, j <> s -> cells (snd result) !! j = cells mem !! j).
Proof.
  intros D A arguments Vrh Vt Vsupply mem Hsel s result.
  subst result s. unfold calculateSensorOutput.
  destruct (outputSelect (common arguments)) as [|[|[|n]]];
    [ | | | unfold kOutputDistributionIndexMax in Hsel; lia ]; cbn;
    (split; [reflexivity|]); (split; [apply length_insert|]);
    intros j Hj; apply list_lookup_insert_ne;
    intros Heq; apply Hj; rewrite <- Heq; reflexivity.
Qed.

Lemma calculateSensorOutput_frame_witness :
  kOutputDistributionIndexCalibratedTemperatureCelcius
  < kOutputDistributionIndexMax
  /\ cells (snd (calculateSensorOutput
                   (selecting kOutputDistributionIndexCalibratedTemperatureCelcius)
                   [2.5; 2.5; 5.1]%Q {| cells := [7; 8; 9]%Q; writes := [] |}))
     !! kOutputDistributionIndexCalibratedTemperatureFahrenheit
     = Some 9%Q.
Proof.
  split; [unfold kOutputDistributionIndexCalibratedTemperatureCelcius,
            kOutputDistributionIndexMax; lia|].
  refine (proj2 (proj2 (calculateSensorOutput_frame Q Q_arith
            (selecting kOutputDistributionIndexCalibratedTemperatureCelcius)
            2.5%Q 2.5%Q 5.1%Q {| cells := [7; 8; 9]%Q; writes := [] |} _))
            kOutputDistributionIndexCalibratedTemperatureFahrenheit _).
  - vm_compute. lia.
  - discriminate.
Defined.

(** * Properties of the processing of the command line *)

(** With the help flag set, "all outputs" together with benchmarking mode
    is not rejected: the process prints the usage and exits with status
    zero. *)
Lemma help_precedes_incompatible_combination :
  incompatibleCombination helpAndBenchmarkingOptions
  /\ getCommandLineArguments (parsedAs helpAndBenchmarkingOptions) []
       (Some setDefaultCommandLineArguments)
     = (Exited 0%Z, [MsgUsage])
  /\ main lcgUniform (parsedAs helpAndBenchmarkingOptions) [] 1%Z
          (fun _ => 0%Q)
     = Terminated 0%Z [MsgUsage].
Proof.
  split; [left; split; [left|left]; reflexivity|].
  split; reflexivity.
Qed.

(** C5, amended.  For every configuration in which the help flag is not
    set, argument processing rejects any combination of the "all outputs"
    selector with benchmarking mode or with Monte Carlo mode, and any
    combination of writing results to a file with Monte Carlo mode: it
    prints a diagnostic and returns the error code, and [main] ends with
    that non-zero status before any computation. *)
Theorem getCommandLineArguments_rejects_incompatible :
  forall (parseArgs : list String.string -> CommonCommandLineArguments ->
                      Z * CommonCommandLineArguments)
         (argv : list String.string) (status : Z)
         (parsed : CommonCommandLineArguments),
    parseArgs argv (common setDefaultCommandLineArguments) = (status, parsed) ->
    isHelpEnabled parsed = false ->
    incompatibleCombination parsed ->
    exists (arguments : option CommandLineArguments)
           (stderr : list Diagnostic),
      getCommandLineArguments parseArgs argv
        (Some setDefaultCommandLineArguments)
      = (Returned (kCommonConstantReturnTypeError, arguments), stderr)
      /\ stderr <> []
      /\ returnTypeValue kCommonConstantReturnTypeError <> 0%Z
      /\ (forall (D : Type) (A : DoubleArith D) (R : Type)
                 (UxHwDoubleUniformDist : R -> D -> D -> D * R)
                 (rng0 : R) (indeterminate : nat -> D),
             main UxHwDoubleUniformDist parseArgs argv rng0 indeterminate
             = Terminated (returnTypeValue kCommonConstantReturnTypeError)
                          stderr).
Proof.
  intros parseArgs argv status parsed Hparse Hhelp Hbad.
  assert (Hcases :
    exists arguments stderr,
      getCommandLineArguments parseArgs argv
        (Some setDefaultCommandLineArguments)
      = (Returned (kCommonConstantReturnTypeError, arguments), stderr)
      /\ stderr <> []).
  { unfold getCommandLineArguments. rewrite Hparse. cbn [common].
    destruct (negb (status =? 0)%Z); [do 2 eexists; split; [reflexivity|discriminate]|].
    rewrite Hhelp.
    destruct (isInputFromFileEnabled parsed);
      [do 2 eexists; split; [reflexivity|discriminate]|].
    destruct Hbad as [[Hall Hmode]|[Hfile Hmc]].
    - destruct (isWriteToFileEnabled parsed && isMonteCarloMode parsed);
        [do 2 eexists; split; [reflexivity|discriminate]|].
      assert (Hor : isBenchmarkingMode parsed || isMonteCarloMode parsed = true).
      { destruct Hmode as [-> | ->]; [reflexivity|apply orb_true_r]. }
      destruct Hall as [Hunsel|Hmax].
      + rewrite Hunsel. cbn. rewrite Hor.
        do 2 eexists; split; [reflexivity|discriminate].
      + destruct (negb (isOutputSelected parsed)); cbn; rewrite ?Hmax; cbn;
          rewrite Hor; (do 2 eexists; split; [reflexivity|discriminate]).
    - rewrite Hfile, Hmc. cbn.
      do 2 eexists; split; [reflexivity|discriminate]. }
  destruct Hcases as (arguments & stderr & Hget & Hne).
  exists arguments, stderr. split; [exact Hget|]. split; [exact Hne|].
  split; [discriminate|].
  intros D A R U rng0 indeterminate. unfold main. rewrite Hget.
  destruct arguments; reflexivity.
Qed.

Lemma getCommandLineArguments_rejects_incompatible_witness :
  exists (arguments : option CommandLineArguments) (stderr : list Diagnostic),
    getCommandLineArguments (parsedAs benchmarkingOptions) []
      (Some setDefaultCommandLineArguments)
    = (Returned (kCommonConstantReturnTypeError, arguments), stderr)
    /\ stderr <> [].
Proof.
  destruct (getCommandLineArguments_rejects_incompatible
              (parsedAs benchmarkingOptions) [] 0%Z benchmarkingOptions)
    as (arguments & stderr & Hget & Hne & _).
  - reflexivity.
  - reflexivity.
  - left. split; [left|left]; reflexivity.
  - exists arguments, stderr. split; [exact Hget|exact Hne].
Defined.

(** An output-select value above [kOutputDistributionIndexMax] is reported
    on the diagnostic stream, but the call returns the success code: the
    branch that prints the message has no [return]. *)
Lemma getCommandLineArguments_select_too_large
    (parseArgs : list String.string -> CommonCommandLineArguments ->
                 Z * CommonCommandLineArguments)
    (argv : list String.string) (parsed : CommonCommandLineArguments) :
  parseArgs argv (common setDefaultCommandLineArguments) = (0%Z, parsed) ->
  isHelpEnabled parsed = false ->
  isInputFromFileEnabled parsed = false ->
  isWriteToFileEnabled parsed && isMonteCarloMode parsed = false ->
  isOutputSelected parsed = true ->
  kOutputDistributionIndexMax < outputSelect parsed ->
  getCommandLineArguments parseArgs argv (Some setDefaultCommandLineArguments)
  = (Returned (kCommonConstantReturnTypeSuccess, Some {| common := parsed |}),
     [MsgOutputSelectTooLarge (outputSelect parsed)
                              kOutputDistributionIndexMax]).
Proof.
  intros Hparse Hhelp Hinput Hfile Hselected Hlarge.
  unfold getCommandLineArguments. rewrite Hparse. cbn [common negb Z.eqb].
  rewrite Hhelp, Hinput, Hfile, Hselected. cbn [negb common].
  apply Nat.ltb_lt in Hlarge. rewrite Hlarge. reflexivity.
Qed.

(** C6, behaviour of the code on [-S 4].  The output-select value 4 is
    greater than the number of outputs; argument processing prints the
    diagnostic but returns the success code, and [main] runs the
    computation loop: the calibration routine is called, requests no
    output, writes nothing and returns [0.0]. *)
Theorem getCommandLineArguments_accepts_select_four :
  (kOutputDistributionIndexMax < outputSelect selectFourOptions)
  /\ getCommandLineArguments (parsedAs selectFourOptions) []
       (Some setDefaultCommandLineArguments)
     = (Returned (kCommonConstantReturnTypeSuccess,
                  Some {| common := selectFourOptions |}),
        [MsgOutputSelectTooLarge 4 kOutputDistributionIndexMax])
  /\ returnTypeValue kCommonConstantReturnTypeSuccess = 0%Z
  /\ exists st : MainState,
       main lcgUniform (parsedAs selectFourOptions) [] 1%Z (fun _ => 7%Q)
       = Computed [MsgOutputSelectTooLarge 4 kOutputDistributionIndexMax]
                  {| common := selectFourOptions |} st
       /\ rng st <> 1%Z
       /\ calibratedSensorOutput st = 0%Q
       /\ outputDistributions st = {| cells := [7; 7; 7]%Q; writes := [] |}.
Proof.
  split; [vm_compute; lia|].
  split; [reflexivity|]. split; [reflexivity|].
  eexists. split; [reflexivity|].
  split; [vm_compute; discriminate|]. split; reflexivity.
Qed.

(** * Properties of the input sampler *)

Lemma lcgNext_range (seed : Z) : (0 <= lcgNext seed < 2 ^ 31)%Z.
Proof. unfold lcgNext. apply Z.mod_pos_bound. reflexivity. Qed.

Lemma lcgUniform_in_range (seed : Z) (low high : Q) :
  (low < high)%Q ->
  (low <= fst (lcgUniform seed low high) <= high)%Q.
Proof.
  intros Hlt. unfold lcgUniform. cbn [fst].
  pose proof (lcgNext_range seed) as [Hlo Hhi].
  set (k := lcgNext seed) in *.
  assert (Hf0 : (0 <= k # 2 ^ 31)%Q).
  { unfold Qle. cbn. lia. }
  assert (Hf1 : (k # 2 ^ 31 <= 1)%Q).
  { unfold Qle. cbn. lia. }
  split; nra.
Qed.

(** C4.  Whenever the platform's uniform generator returns a value between
    the bounds it is given, every call of the input sampler leaves the
    humidity-bridge voltage in [2.3, 2.7], the temperature voltage in
    [2.3, 2.7] and the supply voltage in [4.8, 5.4]; the supply voltage,
    which is the divisor of [Vrh / Vsupply] and [Vt / Vsupply] in the
    calibration routine, is therefore never zero. *)
Theorem setInputDistributionsViaUxHwCall_in_range :
  forall (R : Type) (UxHwDoubleUniformDist : R -> Q -> Q -> Q * R),
    (forall (rng : R) (low high : Q),
        (low < high)%Q ->
        (low <= fst (UxHwDoubleUniformDist rng low high) <= high)%Q) ->
    forall (rng : R) (inputDistributions : list Q),
      length inputDistributions = kInputDistributionIndexMax ->
      let sampled :=
        fst (setInputDistributionsViaUxHwCall UxHwDoubleUniformDist rng
               inputDistributions) in
      let Vrh := readInput sampled kInputDistributionIndexVrh in
      let Vt := readInput sampled kInputDistributionIndexVt in
      let Vsupply := readInput sampled kInputDistributionIndexVsupply in
      (2.3 <= Vrh <= 2.7)%Q
      /\ (2.3 <= Vt <= 2.7)%Q
      /\ (4.8 <= Vsupply <= 5.4)%Q
      /\ ~ (Vsupply == 0)%Q.
Proof.
  intros R U Hcontract rng inputs Hlen sampled Vrh Vt Vsupply.
  destruct inputs as [|a [|b [|c [|d inputs]]]]; try discriminate Hlen.
  subst Vrh Vt Vsupply sampled. unfold setInputDistributionsViaUxHwCall.
  pose proof (Hcontract rng 2.3%Q 2.7%Q eq_refl) as H1.
  change (dlit 2.3) with 2.3%Q in *.
  unfold kDefaultInputDistributionVrhUniformDistLow,
    kDefaultInputDistributionVrhUniformDistHigh,
    kDefaultInputDistributionVtUniformDistLow,
    kDefaultInputDistributionVtUniformDistHigh,
    kDefaultInputDistributionVsupplyUniformDistLow,
    kDefaultInputDistributionVsupplyUniformDistHigh.
  cbn [dlit Q_arith].
  destruct (U rng 2.3%Q 2.7%Q) as [v1 rng1].
  pose proof (Hcontract rng1 2.3%Q 2.7%Q eq_refl) as H2.
  destruct (U rng1 2.3%Q 2.7%Q) as [v2 rng2].
  pose proof (Hcontract rng2 4.8%Q 5.4%Q eq_refl) as H3.
  destruct (U rng2 4.8%Q 5.4%Q) as [v3 rng3].
  cbn in *. repeat split; try tauto.
  intros Hzero. destruct H3 as [H3 _]. rewrite Hzero in H3.
  revert H3. vm_compute. intros H3; apply H3; reflexivity.
Qed.

Lemma setInputDistributionsViaUxHwCall_in_range_witness :
  (4.8 <= readInput (fst (setInputDistributionsViaUxHwCall lcgUniform 1%Z
                            [0; 0; 0]%Q))
                    kInputDistributionIndexVsupply <= 5.4)%Q.
Proof.
  apply (setInputDistributionsViaUxHwCall_in_range Z lcgUniform
           lcgUniform_in_range 1%Z [0; 0; 0]%Q eq_refl).
Defined.

(** * Properties of the driver *)

Section DriverFacts.
Context {D : Type} `{DoubleArith D} {R : Type}.
Variable UxHwDoubleUniformDist : R -> D -> D -> D * R.
Variable arguments : CommandLineArguments.

Local Abbreviation loop := (computationLoop UxHwDoubleUniformDist arguments).
Local Abbreviation body := (loopBody UxHwDoubleUniformDist arguments).

Lemma computationLoop_app (a b i : nat) (st : MainState) :
  loop (a + b) i st = loop b (i + a) (loop a i st).
Proof.
  revert i st. induction a as [|a IH]; intros i st; cbn.
  - rewrite Nat.add_0_r. reflexivity.
  - rewrite IH. replace (S i + a) with (i + S a) by lia. reflexivity.
Qed.

Lemma computationLoop_S (k : nat) (st : MainState) :
  loop (S k) 0 st = body k (loop k 0 st).
Proof.
  replace (S k) with (k + 1) by lia. rewrite computationLoop_app.
  reflexivity.
Qed.

(** What one iteration does to each variable of the frame. *)
Lemma loopBody_unfold (i : nat) (st : MainState) :
  let drawn :=
    setInputDistributionsViaUxHwCall UxHwDoubleUniformDist
      (rng st) (inputDistributions st) in
  let result :=
    calculateSensorOutput arguments (fst drawn) (outputDistributions st) in
  rng (body i st) = snd drawn
  /\ inputDistributions (body i st) = fst drawn
  /\ outputDistributions (body i st) = snd result
  /\ calibratedSensorOutput (body i st) = fst result
  /\ monteCarloOutputSamples (body i st)
     = if isMonteCarloMode (common arguments)
       then (fun samples => <[i := Some (fst result)]> samples)
              <$> monteCarloOutputSamples st
       else monteCarloOutputSamples st.
Proof.
  intros drawn result. subst result drawn. unfold loopBody.
  destruct (setInputDistributionsViaUxHwCall _ _ _) as [inputs rng'].
  cbn [fst snd].
  destruct (calculateSensorOutput _ _ _) as [v mem].
  cbn. repeat split.
Qed.

(** After [k] of [n] iterations, the first [k] slots of the buffer hold
    the calibrated values of iterations [0 .. k-1], in this order, and
    the other slots are still unwritten. *)
Lemma computationLoop_samples (n k : nat) (st0 : MainState) :
  isMonteCarloMode (common arguments) = true ->
  monteCarloOutputSamples st0 = Some (checkedMalloc n) ->
  k <= n ->
  monteCarloOutputSamples (loop k 0 st0)
  = Some (map (fun i => Some (calibratedSensorOutput (loop (S i) 0 st0)))
              (seq 0 k)
          ++ replicate (n - k) None).
Proof.
  intros Hmc Hbuf. induction k as [|k IH]; intros Hk.
  - cbn. rewrite Nat.sub_0_r. exact Hbuf.
  - rewrite computationLoop_S.
    destruct (loopBody_unfold k (loop k 0 st0)) as (_ & _ & _ & Hv & Hs).
    rewrite Hs, Hmc, IH by lia. cbn [fmap option_fmap option_map].
    f_equal. rewrite <- Hv, <- computationLoop_S.
    rewrite insert_app_r_alt by (rewrite length_map, length_seq; lia).
    rewrite length_map, length_seq, Nat.sub_diag.
    replace (n - k) with (S (n - S k)) by lia. cbn [replicate].
    rewrite seq_S, map_app. cbn. rewrite <- app_assoc. reflexivity.
Qed.

(** The writes of one call of the calibration routine. *)
Lemma calculateSensorOutput_log (inputs : list D) (mem : OutputMemory D) :
  outputSelect (common arguments) <= kOutputDistributionIndexMax ->
  let result := calculateSensorOutput arguments inputs mem in
  exists written : list (nat * D),
    writes (snd result) = writes mem ++ written
    /\ map fst written = requestedOutputs (outputSelect (common arguments))
    /\ exists j : nat, last written = Some (j, fst result).
Proof.
  intros Hsel result. subst result. unfold calculateSensorOutput.
  destruct (outputSelect (common arguments)) as [|[|[|[|m]]]];
    [ | | | | unfold kOutputDistributionIndexMax in Hsel; lia ]; cbn.
  - eexists [(_, _)]. repeat split. eexists. reflexivity.
  - eexists [(_, _)]. repeat split. eexists. reflexivity.
  - eexists [(_, _)]. repeat split. eexists. reflexivity.
  - eexists [(_, _); (_, _); (_, _)]. rewrite <- !app_assoc.
    repeat split. eexists. reflexivity.
Qed.
End DriverFacts.

(** * Properties of the statistics aggregator *)

Section AggregatorFacts.
Local Open Scope Q_scope.

Lemma fold_left_sum (xs : list Q) (a : Q) :
  fold_left (fun sum x => dadd sum x) xs a == a + Qsum xs.
Proof.
  unfold Qsum. revert a.
  induction xs as [|x xs IH]; intros a; cbn [fold_left fold_right map].
  - ring.
  - rewrite IH. cbn [dadd dsub dmul Q_arith]. ring.
Qed.

Lemma Qsum_squared_deviations_compat (xs : list Q) (m m' : Q) :
  m == m' ->
  Qsum (map (fun x => (x - m) * (x - m)) xs)
  == Qsum (map (fun x => (x - m') * (x - m')) xs).
Proof.
  intros Hm. unfold Qsum.
  induction xs as [|x xs IH]; cbn [fold_right map]; [reflexivity|].
  rewrite IH, Hm. reflexivity.
Qed.

Lemma fold_left_squared_deviations (xs : list Q) (m a : Q) :
  fold_left (fun acc x => dadd acc (dmul (dsub x m) (dsub x m))) xs a
  == a + Qsum (map (fun x => (x - m) * (x - m)) xs).
Proof.
  unfold Qsum. revert a.
  induction xs as [|x xs IH]; intros a; cbn [fold_left fold_right map].
  - ring.
  - rewrite IH. cbn [dadd dsub dmul Q_arith]. ring.
Qed.

Lemma aggregator_mean (xs : list Q) :
  fold_left (fun sum x => dadd sum x) xs (dlit 0)
  / doubleOfSize (length xs)
  == arithmeticAverage xs.
Proof.
  unfold arithmeticAverage, doubleOfSize. cbn [dlit Q_arith].
  rewrite fold_left_sum. apply Qdiv_comp; [ring|reflexivity].
Qed.

Lemma aggregator_variance (xs : list Q) :
  let mean :=
    fold_left (fun sum x => dadd sum x) xs (dlit 0)
    / doubleOfSize (length xs) in
  fold_left (fun acc x => dadd acc (dmul (dsub x mean) (dsub x mean)))
            xs (dlit 0)
  / doubleOfSize (length xs)
  == populationVariance xs.
Proof.
  intros mean. subst mean. unfold populationVariance.
  rewrite fold_left_squared_deviations.
  apply Qdiv_comp; [|reflexivity].
  cbn [dlit Q_arith]. rewrite Qplus_0_l.
  apply Qsum_squared_deviations_compat, aggregator_mean.
Qed.
End AggregatorFacts.

(** The aggregator runs on binary64 doubles as well. *)
Example aggregator_on_doubles :
  calculateMeanAndVarianceOfDoubleSamples
    [dlit 1; dlit 3; dlit 5; dlit 7] 4
  = inr {| mean := 4%float; variance := 5%float |}.
Proof. vm_compute. reflexivity. Qed.

(** C2.  For every non-empty sample buffer of length [N], the aggregator
    returns the arithmetic average of the [N] samples as mean and their
    population variance (squared deviations from the mean, averaged over
    [N]) as variance; for a buffer of one element the variance is zero
    whatever the sample is. *)
Theorem calculateMeanAndVarianceOfDoubleSamples_population :
  forall samples : list Q,
    samples <> [] ->
    exists result : MeanAndVariance Q,
      calculateMeanAndVarianceOfDoubleSamples samples (length samples)
      = inr result
      /\ (mean result == arithmeticAverage samples)%Q
      /\ (variance result == populationVariance samples)%Q
      /\ (length samples = 1 -> (variance result == 0)%Q).
Proof.
  intros samples Hne.
  unfold calculateMeanAndVarianceOfDoubleSamples.
  destruct (Nat.eqb_spec (length samples) 0) as [Hlen|Hlen].
  { destruct samples; [contradiction|discriminate Hlen]. }
  rewrite firstn_all. eexists. split; [reflexivity|]. cbn [mean variance].
  split; [apply aggregator_mean|]. split; [apply aggregator_variance|].
  intros Hone. rewrite aggregator_variance.
  destruct samples as [|x [|y samples]]; try discriminate Hone.
  unfold populationVariance, arithmeticAverage. cbn. field.
Qed.

Lemma calculateMeanAndVarianceOfDoubleSamples_population_witness :
  exists result : MeanAndVariance Q,
    calculateMeanAndVarianceOfDoubleSamples [1; 3]%Q 2 = inr result
    /\ (mean result == 2)%Q
    /\ (variance result == 1)%Q.
Proof.
  destruct (calculateMeanAndVarianceOfDoubleSamples_population [1; 3]%Q)
    as (result & Hres & Hmean & Hvar & _).
  - discriminate.
  - exists result. split; [exact Hres|]. split.
    + rewrite Hmean. reflexivity.
    + rewrite Hvar. reflexivity.
Defined.

(** C7.  For an empty sample buffer ([N = 0]) the aggregator returns the
    error and no mean-and-variance pair, for every arithmetic of the
    doubles: no division by [N] takes place. *)
Theorem calculateMeanAndVarianceOfDoubleSamples_rejects_empty :
  forall (D : Type) (A : DoubleArith D) (dataArray : list D),
    calculateMeanAndVarianceOfDoubleSamples dataArray 0
    = inl EmptySampleBuffer
    /\ forall result : MeanAndVariance D,
         calculateMeanAndVarianceOfDoubleSamples dataArray 0 <> inr result.
Proof.
  intros D A dataArray. split; [reflexivity|]. intros result. discriminate.
Qed.

(** * Further properties of the calibration routine *)

Section CalibrationAlgebra.
Local Open Scope Q_scope.

Lemma ratio_in_range (V Vsupply : Q) :
  2.3 <= V <= 2.7 -> 4.8 <= Vsupply <= 5.4 ->
  2.3 / 5.4 <= V / Vsupply <= 2.7 / 4.8.
Proof.
  intros [HVlo HVhi] [HSlo HShi].
  assert (Hpos : 0 < Vsupply) by lra.
  split.
  - apply Qle_shift_div_l; [exact Hpos|].
    assert (H54 : 2.3 / 5.4 * 5.4 == 2.3) by (field; discriminate).
    assert (Hmono : 2.3 / 5.4 * Vsupply <= 2.3 / 5.4 * 5.4).
    { apply Qmult_le_l; [reflexivity|exact HShi]. }
    lra.
  - apply Qle_shift_div_r; [exact Hpos|].
    assert (H48 : 2.7 / 4.8 * 4.8 == 2.7) by (field; discriminate).
    assert (Hmono : 2.7 / 4.8 * 4.8 <= 2.7 / 4.8 * Vsupply).
    { apply Qmult_le_l; [reflexivity|exact HSlo]. }
    lra.
Qed.

Lemma calibrationFormula_in_range (i : nat) (Vrh Vt Vsupply : Q) :
  inDefaultRanges Vrh Vt Vsupply ->
  inCalibratedRange i (calibrationFormula i Vrh Vt Vsupply).
Proof.
  intros (Hrh & Ht & Hs).
  pose proof (ratio_in_range Vrh Vsupply Hrh Hs) as [Hr1 Hr2].
  pose proof (ratio_in_range Vt Vsupply Ht Hs) as [Ht1 Ht2].
  unfold inCalibratedRange, calibratedRange, calibrationFormula.
  cbn [fst snd dlit dadd dmul ddiv Q_arith].
  destruct i as [|[|i]]; split; lra.
Qed.
End CalibrationAlgebra.

Section CalibrationRequested.
Context {D : Type} `{DoubleArith D}.

(** Every requested output holds its formula after the call. *)
Lemma calculateSensorOutput_requested (arguments : CommandLineArguments)
    (Vrh Vt Vsupply : D) (mem : OutputMemory D) (i : nat) :
  length (cells mem) = kOutputDistributionIndexMax ->
  In i (requestedOutputs (outputSelect (common arguments))) ->
  cells (snd (calculateSensorOutput arguments [Vrh; Vt; Vsupply] mem)) !! i
  = Some (calibrationFormula i Vrh Vt Vsupply).
Proof.
  destruct mem as [cs ws]. intros Hlen Hin.
  destruct cs as [|a [|b [|c [|d cs]]]]; try discriminate Hlen.
  unfold calculateSensorOutput.
  destruct (outputSelect (common arguments)) as [|[|[|[|n]]]];
    cbn in Hin |- *;
    repeat (destruct Hin as [Hin|Hin]; [subst i; reflexivity|]);
    contradiction.
Qed.

(** The returned value is the formula of the last requested output. *)
Lemma calculateSensorOutput_value (arguments : CommandLineArguments)
    (Vrh Vt Vsupply : D) (mem : OutputMemory D) :
  outputSelect (common arguments) <= kOutputDistributionIndexMax ->
  exists i : nat,
    last (requestedOutputs (outputSelect (common arguments))) = Some i
    /\ fst (calculateSensorOutput arguments [Vrh; Vt; Vsupply] mem)
       = calibrationFormula i Vrh Vt Vsupply.
Proof.
  intros Hsel. unfold calculateSensorOutput.
  destruct (outputSelect (common arguments)) as [|[|[|[|n]]]];
    [ | | | | unfold kOutputDistributionIndexMax in Hsel; lia ];
    eexists; split; reflexivity.
Qed.
(** The writes of one call: one per requested output, in order, each of
    the formula of its output. *)
Lemma calculateSensorOutput_writes (arguments : CommandLineArguments)
    (Vrh Vt Vsupply : D) (mem : OutputMemory D) :
  writes (snd (calculateSensorOutput arguments [Vrh; Vt; Vsupply] mem))
  = writes mem
    ++ map (fun i => (i, calibrationFormula i Vrh Vt Vsupply))
           (requestedOutputs (outputSelect (common arguments))).
Proof.
  unfold calculateSensorOutput.
  destruct (outputSelect (common arguments)) as [|[|[|[|n]]]]; cbn;
    rewrite <- ?app_assoc, ?app_nil_r; reflexivity.
Qed.
End CalibrationRequested.

(** C8.  For every input sample and every output selector (a single output
    or "all"), the routine performs one write per requested output, in the
    order of the outputs, each of the calibration formula of its output on
    the input sample; the value it returns is the value of the last of
    these writes and is what the written cell holds afterwards; every
    requested entry of the output array holds its formula and every other
    entry is unchanged.  For the selector "all" the array holds the three
    outputs, relative humidity, temperature in Celsius and temperature in
    Fahrenheit, and the returned value is the Fahrenheit output. *)
Theorem calculateSensorOutput_returns_last_written :
  forall (D : Type) (A : DoubleArith D) (arguments : CommandLineArguments)
         (Vrh Vt Vsupply : D) (mem : OutputMemory D),
    outputSelect (common arguments) <= kOutputDistributionIndexMax ->
    length (cells mem) = kOutputDistributionIndexMax ->
    let requested := requestedOutputs (outputSelect (common arguments)) in
    let result := calculateSensorOutput arguments [Vrh; Vt; Vsupply] mem in
    let written :=
      map (fun i => (i, calibrationFormula i Vrh Vt Vsupply)) requested in
    writes (snd result) = writes mem ++ written
    /\ (exists i : nat,
           last written = Some (i, fst result)
           /\ cells (snd result) !! i = Some (fst result))
    /\ (forall i : nat,
           In i requested ->
           cells (snd result) !! i
           = Some (calibrationFormula i Vrh Vt Vsupply))
    /\ (forall j : nat,
           ~ In j requested -> cells (snd result) !! j = cells mem !! j)
    /\ (outputSelect (common arguments) = kOutputDistributionIndexMax ->
        fst result = (dlit (-88.375) + dlit 393.75 * (Vt / Vsupply))%D
        /\ cells (snd result)
           = [(dlit (-12.5) + dlit 125 * (Vrh / Vsupply))%D;
              (dlit (-66.875) + dlit 218.75 * (Vt / Vsupply))%D;
              (dlit (-88.375) + dlit 393.75 * (Vt / Vsupply))%D]).
Proof.
  intros D A arguments Vrh Vt Vsupply [cs ws] Hsel Hlen requested result
         written.
  destruct cs as [|a [|b [|c [|d cs]]]]; try discriminate Hlen.
  subst written result requested. unfold calculateSensorOutput.
  destruct (outputSelect (common arguments)) as [|[|[|[|n]]]];
    [ | | | | unfold kOutputDistributionIndexMax in Hsel; lia ]; cbn.
  - split; [reflexivity|]. split; [eexists; split; reflexivity|].
    split; [intros i [<-|[]]; reflexivity|].
    split; [|discriminate].
    intros [|j] Hj; [exfalso; apply Hj; left|]; reflexivity.
  - split; [reflexivity|]. split; [eexists; split; reflexivity|].
    split; [intros i [<-|[]]; reflexivity|].
    split; [|discriminate].
    intros [|[|j]] Hj; [|exfalso; apply Hj; left|]; reflexivity.
  - split; [reflexivity|]. split; [eexists; split; reflexivity|].
    split; [intros i [<-|[]]; reflexivity|].
    split; [|discriminate].
    intros [|[|[|j]]] Hj; [| |exfalso; apply Hj; left|]; reflexivity.
  - split; [rewrite <- !app_assoc; reflexivity|].
    split; [eexists; split; reflexivity|].
    split; [intros i [<-|[<-|[<-|[]]]]; reflexivity|].
    split; [|intros _; split; reflexivity].
    intros [|[|[|j]]] Hj; try reflexivity; exfalso; apply Hj; cbn; tauto.
Qed.

Lemma calculateSensorOutput_returns_last_written_witness :
  fst (calculateSensorOutput (selecting kOutputDistributionIndexMax)
         [2.5; 2.5; 5.1]%Q {| cells := [7; 8; 9]%Q; writes := [] |})
  = (-88.375 + 393.75 * (2.5 / 5.1))%Q
  /\ cells (snd (calculateSensorOutput (selecting kOutputDistributionIndexMax)
                   [2.5; 2.5; 5.1]%Q {| cells := [7; 8; 9]%Q; writes := [] |}))
     = [(-12.5 + 125 * (2.5 / 5.1))%Q;
        (-66.875 + 218.75 * (2.5 / 5.1))%Q;
        (-88.375 + 393.75 * (2.5 / 5.1))%Q].
Proof.
  refine (proj2 (proj2 (proj2 (proj2
            (calculateSensorOutput_returns_last_written Q Q_arith
               (selecting kOutputDistributionIndexMax) 2.5%Q 2.5%Q 5.1%Q
               {| cells := [7; 8; 9]%Q; writes := [] |} _ eq_refl))))
            eq_refl).
  vm_compute. lia.
Defined.


(** X1.  In exact arithmetic the two temperature outputs agree: when all
    outputs are computed, the Fahrenheit output is 1.8 times the
    Celsius output plus 32, for every input sample. *)
Theorem calculateSensorOutput_fahrenheit_of_celcius :
  forall (arguments : CommandLineArguments) (Vrh Vt Vsupply : Q)
         (mem : OutputMemory Q),
    outputSelect (common arguments) = kOutputDistributionIndexMax ->
    length (cells mem) = kOutputDistributionIndexMax ->
    exists Rh Tcelcius Tfahrenheit : Q,
      cells (snd (calculateSensorOutput arguments [Vrh; Vt; Vsupply] mem))
      = [Rh; Tcelcius; Tfahrenheit]
      /\ (Tfahrenheit == 1.8 * Tcelcius + 32)%Q.
Proof.
  intros arguments Vrh Vt Vsupply [cs ws] Hsel Hlen.
  destruct cs as [|a [|b [|c [|d cs]]]]; try discriminate Hlen.
  rewrite calculateSensorOutput_all by exact Hsel.
  cbn [snd store cells]. do 3 eexists. split; [reflexivity|].
  cbn [dlit dadd dmul ddiv Q_arith]. unfold Qdiv. ring.
Qed.

Lemma calculateSensorOutput_fahrenheit_of_celcius_witness :
  exists Rh Tcelcius Tfahrenheit : Q,
    cells (snd (calculateSensorOutput (selecting kOutputDistributionIndexMax)
                  [2.5; 2.5; 5.1]%Q {| cells := [0; 0; 0]%Q; writes := [] |}))
    = [Rh; Tcelcius; Tfahrenheit]
    /\ (Tfahrenheit == 1.8 * Tcelcius + 32)%Q.
Proof.
  apply (calculateSensorOutput_fahrenheit_of_celcius
           (selecting kOutputDistributionIndexMax) 2.5%Q 2.5%Q 5.1%Q
           {| cells := [0; 0; 0]%Q; writes := [] |} eq_refl eq_refl).
Defined.

(** X2.  The calibration is ratiometric: in exact arithmetic, multiplying
    the three input voltages by a common non-zero factor changes neither the
    returned value nor any cell of the output array, for every selector. *)
Theorem calculateSensorOutput_ratiometric :
  forall (arguments : CommandLineArguments) (k Vrh Vt Vsupply : Q)
         (mem : OutputMemory Q),
    ~ (k == 0)%Q ->
    ~ (Vsupply == 0)%Q ->
    let result := calculateSensorOutput arguments [Vrh; Vt; Vsupply] mem in
    let scaled :=
      calculateSensorOutput arguments
        [k * Vrh; k * Vt; k * Vsupply]%Q mem in
    (fst scaled == fst result)%Q
    /\ Forall2 Qeq (cells (snd scaled)) (cells (snd result)).
Proof.
  intros arguments k Vrh Vt Vsupply [cs ws] Hk Hs result scaled.
  subst result scaled. unfold calculateSensorOutput.
  assert (Hrefl : Forall2 Qeq cs cs).
  { induction cs; constructor; [reflexivity|assumption]. }
  assert (Hrh : (k * Vrh / (k * Vsupply) == Vrh / Vsupply)%Q)
    by (field; split; assumption).
  assert (Ht : (k * Vt / (k * Vsupply) == Vt / Vsupply)%Q)
    by (field; split; assumption).
  destruct (outputSelect (common arguments)) as [|[|[|[|n]]]];
    cbn -[Qmult Qdiv Qplus];
    (split;
     [ try rewrite Hrh; try rewrite Ht; reflexivity
     | repeat apply Forall2_insert; try exact Hrefl;
       try rewrite Hrh; try rewrite Ht; reflexivity ]).
Qed.

Lemma calculateSensorOutput_ratiometric_witness :
  (fst (calculateSensorOutput
          (selecting kOutputDistributionIndexCalibratedRelativeHumidity)
          [2 * 2.5; 2 * 2.5; 2 * 5.1]%Q {| cells := [0; 0; 0]%Q; writes := [] |})
   == fst (calculateSensorOutput
             (selecting kOutputDistributionIndexCalibratedRelativeHumidity)
             [2.5; 2.5; 5.1]%Q {| cells := [0; 0; 0]%Q; writes := [] |}))%Q.
Proof.
  refine (proj1 (calculateSensorOutput_ratiometric
            (selecting kOutputDistributionIndexCalibratedRelativeHumidity)
            2%Q 2.5%Q 2.5%Q 5.1%Q {| cells := [0; 0; 0]%Q; writes := [] |}
            _ _)); discriminate.
Defined.

(** X3.  In exact arithmetic, when the three input voltages lie in the
    default ranges, every output the selector requests is stored with a
    value inside the interval spanned by the range end points: relative
    humidity between 40.74 and 57.82 percent, temperature between 26.29
    and 56.18 degrees Celsius, or between 79.33 and 133.11 degrees
    Fahrenheit. *)
Theorem calculateSensorOutput_within_calibrated_range :
  forall (arguments : CommandLineArguments) (Vrh Vt Vsupply : Q)
         (mem : OutputMemory Q) (i : nat),
    inDefaultRanges Vrh Vt Vsupply ->
    length (cells mem) = kOutputDistributionIndexMax ->
    In i (requestedOutputs (outputSelect (common arguments))) ->
    exists v : Q,
      cells (snd (calculateSensorOutput arguments [Vrh; Vt; Vsupply] mem)) !! i
      = Some v
      /\ inCalibratedRange i v
      /\ (i = kOutputDistributionIndexCalibratedRelativeHumidity ->
          40.74 <= v <= 57.82)%Q
      /\ (i = kOutputDistributionIndexCalibratedTemperatureCelcius ->
          26.29 <= v <= 56.18)%Q
      /\ (i = kOutputDistributionIndexCalibratedTemperatureFahrenheit ->
          79.33 <= v <= 133.11)%Q.
Proof.
  intros arguments Vrh Vt Vsupply mem i Hin Hlen Hreq.
  exists (calibrationFormula i Vrh Vt Vsupply).
  split; [apply calculateSensorOutput_requested; assumption|].
  pose proof (calibrationFormula_in_range i Vrh Vt Vsupply Hin) as Hrange.
  split; [exact Hrange|].
  unfold inCalibratedRange in Hrange.
  split; [|split]; intros ->; destruct Hrange as [Hlo Hhi]; split;
    (eapply Qle_trans; [|exact Hlo]) || (eapply Qle_trans; [exact Hhi|]);
    vm_compute; discriminate.
Qed.

Lemma calculateSensorOutput_within_calibrated_range_witness :
  exists v : Q,
    cells (snd (calculateSensorOutput
                  (selecting kOutputDistributionIndexCalibratedRelativeHumidity)
                  [2.5; 2.5; 5.1]%Q {| cells := [0; 0; 0]%Q; writes := [] |}))
    !! kOutputDistributionIndexCalibratedRelativeHumidity = Some v
    /\ (40.74 <= v <= 57.82)%Q.
Proof.
  destruct (calculateSensorOutput_within_calibrated_range
              (selecting kOutputDistributionIndexCalibratedRelativeHumidity)
              2.5%Q 2.5%Q 5.1%Q {| cells := [0; 0; 0]%Q; writes := [] |}
              kOutputDistributionIndexCalibratedRelativeHumidity)
    as (v & Hv & _ & Hrh & _).
  - repeat split; vm_compute; discriminate.
  - reflexivity.
  - left. reflexivity.
  - exists v. split; [exact Hv|]. apply Hrh. reflexivity.
Defined.

(** X4.  Calling the calibration routine a second time with the same
    arguments and inputs returns the same value and leaves every cell of
    the output array as the first call left it, for every selector and
    every array length. *)
Theorem calculateSensorOutput_idempotent :
  forall (D : Type) (A : DoubleArith D) (arguments : CommandLineArguments)
         (inputs : list D) (mem : OutputMemory D),
    let first := calculateSensorOutput arguments inputs mem in
    let second := calculateSensorOutput arguments inputs (snd first) in
    cells (snd second) = cells (snd first)
    /\ fst second = fst first.
Proof.
  intros D A arguments inputs [cs ws] first second. subst second first.
  unfold calculateSensorOutput.
  destruct (outputSelect (common arguments)) as [|[|[|[|n]]]]; cbn;
    (split; [|reflexivity]);
    destruct cs as [|x [|y [|z cs]]]; reflexivity.
Qed.

(** * Further properties of the input sampler *)

Section SamplerFacts.
Context {D : Type} `{DoubleArith D} {R : Type}.
Variable UxHwDoubleUniformDist : R -> D -> D -> D * R.

Lemma setInputDistributionsViaUxHwCall_length (rng : R) (inputs : list D) :
  length (fst (setInputDistributionsViaUxHwCall UxHwDoubleUniformDist rng
                 inputs))
  = length inputs.
Proof.
  unfold setInputDistributionsViaUxHwCall.
  destruct (UxHwDoubleUniformDist rng _ _) as [v1 rng1].
  destruct (UxHwDoubleUniformDist rng1 _ _) as [v2 rng2].
  destruct (UxHwDoubleUniformDist rng2 _ _) as [v3 rng3].
  cbn [fst]. rewrite !length_insert. reflexivity.
Qed.
End SamplerFacts.

(** X5.  A call of the input sampler keeps the length of the array and
    every entry from index [kInputDistributionIndexMax] on; the generator
    state it leaves does not depend on the array, and on an array of the
    declared length neither do the three entries it writes: no value of an
    earlier iteration survives the call. *)
Theorem setInputDistributionsViaUxHwCall_overwrites :
  forall (D : Type) (A : DoubleArith D) (R : Type)
         (UxHwDoubleUniformDist : R -> D -> D -> D * R)
         (rng : R) (inputs other : list D),
    let sampled :=
      setInputDistributionsViaUxHwCall UxHwDoubleUniformDist rng inputs in
    let sampled' :=
      setInputDistributionsViaUxHwCall UxHwDoubleUniformDist rng other in
    length (fst sampled) = length inputs
    /\ (forall j : nat,
           kInputDistributionIndexMax <= j -> fst sampled !! j = inputs !! j)
    /\ snd sampled' = snd sampled
    /\ (length inputs = kInputDistributionIndexMax ->
        length other = kInputDistributionIndexMax ->
        fst sampled' = fst sampled).
Proof.
  intros D A R U rng inputs other sampled sampled'.
  split; [apply setInputDistributionsViaUxHwCall_length|].
  subst sampled sampled'. unfold setInputDistributionsViaUxHwCall.
  destruct (U rng _ _) as [v1 rng1].
  destruct (U rng1 _ _) as [v2 rng2].
  destruct (U rng2 _ _) as [v3 rng3].
  cbn [fst snd]. split; [|split; [reflexivity|]].
  - intros j Hj. unfold kInputDistributionIndexMax in Hj.
    rewrite !list_lookup_insert_ne;
      [reflexivity| | | ];
      unfold kInputDistributionIndexVrh, kInputDistributionIndexVt,
        kInputDistributionIndexVsupply; lia.
  - intros Hlen Hlen'.
    destruct inputs as [|a [|b [|c [|d inputs]]]]; try discriminate Hlen.
    destruct other as [|a' [|b' [|c' [|d' other]]]]; try discriminate Hlen'.
    reflexivity.
Qed.

Lemma setInputDistributionsViaUxHwCall_overwrites_witness :
  fst (setInputDistributionsViaUxHwCall lcgUniform 1%Z [7; 8; 9]%Q)
  = fst (setInputDistributionsViaUxHwCall lcgUniform 1%Z [0; 0; 0]%Q).
Proof.
  apply (proj2 (proj2 (proj2
           (setInputDistributionsViaUxHwCall_overwrites Q Q_arith Z lcgUniform
              1%Z [0; 0; 0]%Q [7; 8; 9]%Q))) eq_refl eq_refl).
Defined.

(** * Further properties of the processing of the command line *)

(** X6.  Whatever the parser returns, a call of [getCommandLineArguments]
    ends in one of three ways: it exits the process, only for the help flag,
    with status zero and the usage as sole output; it returns the error code
    together with at least one diagnostic; or it returns the success code
    with the argument structure and either no diagnostic or the single
    diagnostic of an output-select value above the maximum. *)
Theorem getCommandLineArguments_outcomes :
  forall (parseArgs : list String.string -> CommonCommandLineArguments ->
                      Z * CommonCommandLineArguments)
         (argv : list String.string)
         (initial : option CommandLineArguments),
    match getCommandLineArguments parseArgs argv initial with
    | (Exited status, stderr) =>
        status = 0%Z /\ stderr = [MsgUsage]
        /\ isHelpEnabled
             (snd (parseArgs argv (common setDefaultCommandLineArguments)))
           = true
    | (Returned (kCommonConstantReturnTypeError, _), stderr) => stderr <> []
    | (Returned (kCommonConstantReturnTypeSuccess, arguments), stderr) =>
        exists accepted : CommandLineArguments,
          arguments = Some accepted
          /\ (stderr = []
              /\ outputSelect (common accepted) <= kOutputDistributionIndexMax
              \/ stderr = [MsgOutputSelectTooLarge
                             (outputSelect (common accepted))
                             kOutputDistributionIndexMax]
                 /\ kOutputDistributionIndexMax
                    < outputSelect (common accepted))
    end.
Proof.
  intros parseArgs argv [initial|]; [|discriminate].
  unfold getCommandLineArguments.
  destruct (parseArgs argv _) as [status parsed]. cbn [snd common].
  destruct (negb (status =? 0)%Z); [discriminate|].
  destruct (isHelpEnabled parsed) eqn:Hhelp; [repeat split|].
  destruct (isInputFromFileEnabled parsed); [discriminate|].
  destruct (isWriteToFileEnabled parsed && isMonteCarloMode parsed);
    [discriminate|].
  match goal with
  | |- context [Nat.ltb ?m (outputSelect (common ?a))] =>
      set (accepted := a);
      destruct (Nat.ltb_spec m (outputSelect (common accepted))) as [Hlt|Hle]
  end.
  - exists accepted. split; [reflexivity|]. right. split; [reflexivity|exact Hlt].
  - destruct (outputSelect (common accepted) =? kOutputDistributionIndexMax)%nat.
    + destruct (isBenchmarkingMode (common accepted)
                || isMonteCarloMode (common accepted)); [discriminate|].
      exists accepted. split; [reflexivity|]. left. split; [reflexivity|exact Hle].
    + exists accepted. split; [reflexivity|]. left. split; [reflexivity|exact Hle].
Qed.

(** X7.  When [getCommandLineArguments] returns the success code, the
    parser had succeeded, neither help nor input from a file was requested,
    writing to a file is not combined with Monte Carlo mode, the returned
    arguments are the parsed ones with the selector set to "all" when no
    output was selected, and with the selector "all" neither benchmarking
    mode nor Monte Carlo mode is set. *)
Theorem getCommandLineArguments_success_sound :
  forall (parseArgs : list String.string -> CommonCommandLineArguments ->
                      Z * CommonCommandLineArguments)
         (argv : list String.string)
         (initial arguments : option CommandLineArguments)
         (stderr : list Diagnostic),
    getCommandLineArguments parseArgs argv initial
    = (Returned (kCommonConstantReturnTypeSuccess, arguments), stderr) ->
    let parsed := snd (parseArgs argv (common setDefaultCommandLineArguments)) in
    exists accepted : CommandLineArguments,
      arguments = Some accepted
      /\ fst (parseArgs argv (common setDefaultCommandLineArguments)) = 0%Z
      /\ common accepted
         = (if isOutputSelected parsed then parsed
            else set_outputSelect kOutputDistributionIndexMax parsed)
      /\ isHelpEnabled (common accepted) = false
      /\ isInputFromFileEnabled (common accepted) = false
      /\ isWriteToFileEnabled (common accepted)
         && isMonteCarloMode (common accepted) = false
      /\ (outputSelect (common accepted) = kOutputDistributionIndexMax ->
          isBenchmarkingMode (common accepted) = false
          /\ isMonteCarloMode (common accepted) = false).
Proof.
  intros parseArgs argv [initial|] arguments stderr; [|discriminate].
  unfold getCommandLineArguments.
  destruct (parseArgs argv _) as [status parsed]. cbn [fst snd common].
  destruct (Z.eqb_spec status 0) as [->|Hne]; cbn [negb]; [|discriminate].
  destruct (isHelpEnabled parsed) eqn:Hhelp; [discriminate|].
  destruct (isInputFromFileEnabled parsed) eqn:Hinput; [discriminate|].
  destruct (isWriteToFileEnabled parsed && isMonteCarloMode parsed) eqn:Hfile;
    [discriminate|].
  destruct (isOutputSelected parsed) eqn:Hselected; cbn [negb common].
  - destruct (Nat.ltb_spec kOutputDistributionIndexMax (outputSelect parsed))
      as [Hlt|Hle].
    + intros Heq. injection Heq as <- <-. eexists. split; [reflexivity|].
      cbn [common]. repeat apply conj; try assumption; try reflexivity.
      intros Hmax. lia.
    + destruct (Nat.eqb_spec (outputSelect parsed) kOutputDistributionIndexMax)
        as [Hmax|Hnmax].
      * destruct (isBenchmarkingMode parsed || isMonteCarloMode parsed)
          eqn:Hmode; [discriminate|].
        apply orb_false_elim in Hmode.
        intros Heq. injection Heq as <- <-. eexists. split; [reflexivity|].
        cbn [common]. repeat apply conj; try assumption; try reflexivity.
        intros _. exact Hmode.
      * intros Heq. injection Heq as <- <-. eexists. split; [reflexivity|].
        cbn [common]. repeat apply conj; try assumption; try reflexivity.
        intros Hmax. contradiction.
  - cbn [set_outputSelect outputSelect isBenchmarkingMode isMonteCarloMode].
    cbn [Nat.ltb Nat.leb Nat.eqb kOutputDistributionIndexMax].
    destruct (isBenchmarkingMode parsed || isMonteCarloMode parsed)
      eqn:Hmode; [discriminate|].
    apply orb_false_elim in Hmode.
    intros Heq. injection Heq as <- <-. eexists. split; [reflexivity|].
    cbn. repeat apply conj; try assumption; try reflexivity.
    intros _. exact Hmode.
Qed.

Lemma getCommandLineArguments_success_sound_witness :
  exists accepted : CommandLineArguments,
    Some {| common := monteCarloOptions 0 3 |} = Some accepted
    /\ isHelpEnabled (common accepted) = false.
Proof.
  destruct (getCommandLineArguments_success_sound
              (parsedAs (monteCarloOptions 0 3)) []
              (Some setDefaultCommandLineArguments)
              (Some {| common := monteCarloOptions 0 3 |}) [] eq_refl)
    as (accepted & Heq & _ & _ & Hhelp & _).
  exists accepted. split; [exact Heq|exact Hhelp].
Defined.

(** X8.  [getCommandLineArguments] accepts, without any diagnostic and
    without changing the parsed options, every successfully parsed
    configuration that selects a single existing output, requests neither
    help nor input from a file and does not combine writing to a file with
    Monte Carlo mode, whatever its other mode flags and iteration count. *)
Theorem getCommandLineArguments_accepts_single_output :
  forall (parseArgs : list String.string -> CommonCommandLineArguments ->
                      Z * CommonCommandLineArguments)
         (argv : list String.string) (initial : CommandLineArguments)
         (parsed : CommonCommandLineArguments),
    parseArgs argv (common setDefaultCommandLineArguments) = (0%Z, parsed) ->
    isHelpEnabled parsed = false ->
    isInputFromFileEnabled parsed = false ->
    isWriteToFileEnabled parsed && isMonteCarloMode parsed = false ->
    isOutputSelected parsed = true ->
    outputSelect parsed < kOutputDistributionIndexMax ->
    getCommandLineArguments parseArgs argv (Some initial)
    = (Returned (kCommonConstantReturnTypeSuccess,
                 Some {| common := parsed |}), []).
Proof.
  intros parseArgs argv initial parsed Hparse Hhelp Hinput Hfile Hsel Hlt.
  unfold getCommandLineArguments. rewrite Hparse. cbn [common negb Z.eqb].
  rewrite Hhelp, Hinput, Hfile, Hsel. cbn [negb common].
  destruct (Nat.ltb_spec kOutputDistributionIndexMax (outputSelect parsed));
    [lia|].
  destruct (Nat.eqb_spec (outputSelect parsed) kOutputDistributionIndexMax);
    [lia|reflexivity].
Qed.

Lemma getCommandLineArguments_accepts_single_output_witness :
  getCommandLineArguments (parsedAs (monteCarloOptions 1 5)) []
    (Some setDefaultCommandLineArguments)
  = (Returned (kCommonConstantReturnTypeSuccess,
               Some {| common := monteCarloOptions 1 5 |}), []).
Proof.
  apply (getCommandLineArguments_accepts_single_output
           (parsedAs (monteCarloOptions 1 5)) [] setDefaultCommandLineArguments
           (monteCarloOptions 1 5) eq_refl eq_refl eq_refl eq_refl eq_refl).
  vm_compute. lia.
Defined.

(** * Further properties of the driver *)

Section CalibrationMemoryFacts.
Context {D : Type} `{DoubleArith D}.

Lemma calculateSensorOutput_cells_length (arguments : CommandLineArguments)
    (inputs : list D) (mem : OutputMemory D) :
  length (cells (snd (calculateSensorOutput arguments inputs mem)))
  = length (cells mem).
Proof.
  unfold calculateSensorOutput.
  destruct (outputSelect (common arguments)) as [|[|[|[|n]]]]; cbn;
    rewrite ?length_insert; reflexivity.
Qed.

Lemma calculateSensorOutput_other_cells (arguments : CommandLineArguments)
    (inputs : list D) (mem : OutputMemory D) (j : nat) :
  outputSelect (common arguments) <> kOutputDistributionIndexMax ->
  j <> outputSelect (common arguments) ->
  cells (snd (calculateSensorOutput arguments inputs mem)) !! j
  = cells mem !! j.
Proof.
  intros Hsel Hj. unfold calculateSensorOutput.
  destruct (outputSelect (common arguments)) as [|[|[|[|n]]]]; cbn;
    try reflexivity;
    try (apply list_lookup_insert_ne; intros Heq; apply Hj; rewrite <- Heq;
         reflexivity).
  exfalso. apply Hsel. reflexivity.
Qed.

Lemma calculateSensorOutput_written_indices (arguments : CommandLineArguments)
    (inputs : list D) (mem : OutputMemory D) :
  map fst (writes (snd (calculateSensorOutput arguments inputs mem)))
  = map fst (writes mem)
    ++ requestedOutputs (outputSelect (common arguments)).
Proof.
  unfold calculateSensorOutput.
  destruct (outputSelect (common arguments)) as [|[|[|[|n]]]]; cbn;
    rewrite ?map_app, <- ?app_assoc, ?app_nil_r; reflexivity.
Qed.
End CalibrationMemoryFacts.

Section LoopFacts.
Context {D : Type} `{DoubleArith D} {R : Type}.
Variable UxHwDoubleUniformDist : R -> D -> D -> D * R.
Variable arguments : CommandLineArguments.

Local Abbreviation loop := (computationLoop UxHwDoubleUniformDist arguments).
Local Abbreviation body := (loopBody UxHwDoubleUniformDist arguments).

(** A property of the frame that every iteration preserves holds when the
    loop ends. *)
Lemma computationLoop_invariant (P : MainState -> Prop) :
  (forall (i : nat) (st : MainState), P st -> P (body i st)) ->
  forall (n i : nat) (st : MainState), P st -> P (loop n i st).
Proof.
  intros Hstep n. induction n as [|n IH]; intros i st HP; cbn.
  - exact HP.
  - apply IH, Hstep, HP.
Qed.

Lemma computationLoop_inputs_length (n i : nat) (st : MainState) :
  length (inputDistributions (loop n i st)) = length (inputDistributions st).
Proof.
  apply (computationLoop_invariant
           (fun st' => length (inputDistributions st')
                       = length (inputDistributions st))); [|reflexivity].
  intros k st' Hst'.
  destruct (loopBody_unfold UxHwDoubleUniformDist arguments k st')
    as (_ & -> & _).
  rewrite setInputDistributionsViaUxHwCall_length. exact Hst'.
Qed.

Lemma computationLoop_cells_length (n i : nat) (st : MainState) :
  length (cells (outputDistributions (loop n i st)))
  = length (cells (outputDistributions st)).
Proof.
  apply (computationLoop_invariant
           (fun st' => length (cells (outputDistributions st'))
                       = length (cells (outputDistributions st))));
    [|reflexivity].
  intros k st' Hst'.
  destruct (loopBody_unfold UxHwDoubleUniformDist arguments k st')
    as (_ & _ & -> & _).
  rewrite calculateSensorOutput_cells_length. exact Hst'.
Qed.

Lemma computationLoop_other_cells (n i j : nat) (st : MainState) :
  outputSelect (common arguments) <> kOutputDistributionIndexMax ->
  j <> outputSelect (common arguments) ->
  cells (outputDistributions (loop n i st)) !! j
  = cells (outputDistributions st) !! j.
Proof.
  intros Hsel Hj.
  apply (computationLoop_invariant
           (fun st' => cells (outputDistributions st') !! j
                       = cells (outputDistributions st) !! j));
    [|reflexivity].
  intros k st' Hst'.
  destruct (loopBody_unfold UxHwDoubleUniformDist arguments k st')
    as (_ & _ & -> & _).
  rewrite calculateSensorOutput_other_cells by assumption. exact Hst'.
Qed.


Lemma computationLoop_written_indices (n : nat) (st : MainState) :
  map fst (writes (outputDistributions (loop n 0 st)))
  = map fst (writes (outputDistributions st))
    ++ mjoin (replicate n (requestedOutputs (outputSelect (common arguments)))).
Proof.
  induction n as [|n IH].
  - cbn. rewrite app_nil_r. reflexivity.
  - rewrite computationLoop_S.
    destruct (loopBody_unfold UxHwDoubleUniformDist arguments n (loop n 0 st))
      as (_ & _ & -> & _).
    rewrite calculateSensorOutput_written_indices, IH, <- app_assoc.
    f_equal.
    replace (S n) with (n + 1) by lia.
    rewrite replicate_add, join_app. cbn. rewrite app_nil_r. reflexivity.
Qed.
End LoopFacts.

(** [main] runs the whole loop on the frame it sets up once the arguments
    are accepted. *)
Lemma main_computed {D : Type} `{DoubleArith D} {R : Type}
    (UxHwDoubleUniformDist : R -> D -> D -> D * R)
    (parseArgs : list String.string -> CommonCommandLineArguments ->
                 Z * CommonCommandLineArguments)
    (argv : list String.string) (rng0 : R) (indeterminate : nat -> D)
    (arguments : CommandLineArguments) (stderr : list Diagnostic) :
  getCommandLineArguments parseArgs argv (Some setDefaultCommandLineArguments)
  = (Returned (kCommonConstantReturnTypeSuccess, Some arguments), stderr) ->
  main UxHwDoubleUniformDist parseArgs argv rng0 indeterminate
  = Computed stderr arguments
      (computationLoop UxHwDoubleUniformDist arguments
         (numberOfMonteCarloIterations (common arguments)) 0
         (initialMainState arguments rng0 indeterminate)).
Proof.
  intros Hget. unfold main. rewrite Hget. reflexivity.
Qed.


(** X10.  With a single output selected, the entries of
    [outputDistributions] other than the selected one are never written by
    the loop: after any number of iterations they still hold the
    indeterminate values the array had when [main] started. *)
Theorem main_unselected_outputs_indeterminate :
  forall (D : Type) (A : DoubleArith D) (R : Type)
         (UxHwDoubleUniformDist : R -> D -> D -> D * R)
         (parseArgs : list String.string -> CommonCommandLineArguments ->
                      Z * CommonCommandLineArguments)
         (argv : list String.string) (rng0 : R) (indeterminate : nat -> D)
         (arguments : CommandLineArguments) (stderr : list Diagnostic),
    getCommandLineArguments parseArgs argv (Some setDefaultCommandLineArguments)
    = (Returned (kCommonConstantReturnTypeSuccess, Some arguments), stderr) ->
    outputSelect (common arguments) < kOutputDistributionIndexMax ->
    exists st : MainState,
      main UxHwDoubleUniformDist parseArgs argv rng0 indeterminate
      = Computed stderr arguments st
      /\ length (cells (outputDistributions st)) = kOutputDistributionIndexMax
      /\ forall j : nat,
           j < kOutputDistributionIndexMax ->
           j <> outputSelect (common arguments) ->
           cells (outputDistributions st) !! j = Some (indeterminate (3 + j)).
Proof.
  intros D A R U parseArgs argv rng0 indeterminate arguments stderr Hget Hsel.
  eexists. split; [apply main_computed, Hget|].
  split; [rewrite computationLoop_cells_length; reflexivity|].
  intros j Hj Hne. rewrite computationLoop_other_cells by lia.
  unfold kOutputDistributionIndexMax in Hj.
  destruct j as [|[|[|j]]]; [reflexivity|reflexivity|reflexivity|lia].
Qed.

(** X11.  The indices the loop writes in [outputDistributions] are the
    requested outputs, in order, once per iteration: after [N] iterations
    the write log lists [N] repetitions of them, so nothing is written for a
    selector above the maximum. *)
Theorem main_written_indices :
  forall (D : Type) (A : DoubleArith D) (R : Type)
         (UxHwDoubleUniformDist : R -> D -> D -> D * R)
         (parseArgs : list String.string -> CommonCommandLineArguments ->
                      Z * CommonCommandLineArguments)
         (argv : list String.string) (rng0 : R) (indeterminate : nat -> D)
         (arguments : CommandLineArguments) (stderr : list Diagnostic),
    getCommandLineArguments parseArgs argv (Some setDefaultCommandLineArguments)
    = (Returned (kCommonConstantReturnTypeSuccess, Some arguments), stderr) ->
    exists st : MainState,
      main UxHwDoubleUniformDist parseArgs argv rng0 indeterminate
      = Computed stderr arguments st
      /\ map fst (writes (outputDistributions st))
         = mjoin (replicate (numberOfMonteCarloIterations (common arguments))
                    (requestedOutputs (outputSelect (common arguments))))
      /\ (kOutputDistributionIndexMax < outputSelect (common arguments) ->
          writes (outputDistributions st) = []).
Proof.
  intros D A R U parseArgs argv rng0 indeterminate arguments stderr Hget.
  eexists. split; [apply main_computed, Hget|].
  assert (Hlog := computationLoop_written_indices U arguments
            (numberOfMonteCarloIterations (common arguments))
            (initialMainState arguments rng0 indeterminate)).
  cbn [initialMainState outputDistributions writes map app] in Hlog.
  split; [exact Hlog|].
  intros Hlarge.
  assert (Hnone : requestedOutputs (outputSelect (common arguments)) = []).
  { unfold requestedOutputs.
    destruct (Nat.eqb_spec (outputSelect (common arguments))
                kOutputDistributionIndexMax); [lia|].
    destruct (Nat.ltb_spec (outputSelect (common arguments))
                kOutputDistributionIndexMax); [lia|reflexivity]. }
  rewrite Hnone in Hlog.
  assert (Hempty : forall n, mjoin (replicate n (@nil nat)) = []).
  { intros n. induction n; [reflexivity|exact IHn]. }
  rewrite Hempty in Hlog.
  destruct (writes _); [reflexivity|discriminate Hlog].
Qed.


Lemma main_unselected_outputs_indeterminate_witness :
  exists st : MainState,
    main lcgUniform (parsedAs (monteCarloOptions 1 5)) [] 1%Z
         (fun k => inject_Z (Z.of_nat k))
    = Computed [] {| common := monteCarloOptions 1 5 |} st
    /\ cells (outputDistributions st) !! 2 = Some 5%Q.
Proof.
  destruct (main_unselected_outputs_indeterminate Q Q_arith Z lcgUniform
              (parsedAs (monteCarloOptions 1 5)) [] 1%Z
              (fun k => inject_Z (Z.of_nat k))
              {| common := monteCarloOptions 1 5 |} [] eq_refl)
    as (st & Hmain & _ & Hcells).
  - vm_compute. lia.
  - exists st. split; [exact Hmain|]. apply (Hcells 2).
    + vm_compute. lia.
    + discriminate.
Defined.

Lemma main_written_indices_witness :
  exists st : MainState,
    main lcgUniform (parsedAs (monteCarloOptions 1 2)) [] 1%Z (fun _ => 0%Q)
    = Computed [] {| common := monteCarloOptions 1 2 |} st
    /\ map fst (writes (outputDistributions st)) = [1; 1].
Proof.
  destruct (main_written_indices Q Q_arith Z lcgUniform
              (parsedAs (monteCarloOptions 1 2)) [] 1%Z (fun _ => 0%Q)
              {| common := monteCarloOptions 1 2 |} [] eq_refl)
    as (st & Hmain & Hlog & _).
  exists st. split; [exact Hmain|exact Hlog].
Defined.


(** C9.  For every iteration count [N], zero included, a Monte Carlo run
    whose arguments were accepted ends the computation loop (it is not
    ended with an error) with a sample buffer of exactly [N] written slots,
    in iteration order: iteration [i] draws a sample [Vrh, Vt, Vsupply],
    stores in every requested entry of [outputDistributions] the
    calibration formula of that output on the sample, by one write per
    requested output, and stores in slot [i] of the buffer the formula of
    the last requested output on the same sample. *)
Theorem computationLoop_fills_sample_buffer :
  forall (D : Type) (A : DoubleArith D) (R : Type)
         (UxHwDoubleUniformDist : R -> D -> D -> D * R)
         (parseArgs : list String.string -> CommonCommandLineArguments ->
                      Z * CommonCommandLineArguments)
         (argv : list String.string) (rng0 : R) (indeterminate : nat -> D)
         (arguments : CommandLineArguments) (stderr : list Diagnostic),
    getCommandLineArguments parseArgs argv (Some setDefaultCommandLineArguments)
    = (Returned (kCommonConstantReturnTypeSuccess, Some arguments), stderr) ->
    isMonteCarloMode (common arguments) = true ->
    outputSelect (common arguments) <= kOutputDistributionIndexMax ->
    let N := numberOfMonteCarloIterations (common arguments) in
    let requested := requestedOutputs (outputSelect (common arguments)) in
    let st0 := initialMainState arguments rng0 indeterminate in
    exists (st : MainState) (buffer : list D),
      main UxHwDoubleUniformDist parseArgs argv rng0 indeterminate
      = Computed stderr arguments st
      /\ monteCarloOutputSamples st = Some (map Some buffer)
      /\ length buffer = N
      /\ (N = 0 -> buffer = [])
      /\ (forall i : nat,
             i < N ->
             let before :=
               computationLoop UxHwDoubleUniformDist arguments i 0 st0 in
             let after :=
               computationLoop UxHwDoubleUniformDist arguments (S i) 0 st0 in
             exists (Vrh Vt Vsupply : D) (k : nat),
               fst (setInputDistributionsViaUxHwCall UxHwDoubleUniformDist
                      (rng before) (inputDistributions before))
               = [Vrh; Vt; Vsupply]
               /\ inputDistributions after = [Vrh; Vt; Vsupply]
               /\ last requested = Some k
               /\ buffer !! i = Some (calibrationFormula k Vrh Vt Vsupply)
               /\ (forall j : nat,
                      In j requested ->
                      cells (outputDistributions after) !! j
                      = Some (calibrationFormula j Vrh Vt Vsupply))
               /\ writes (outputDistributions after)
                  = writes (outputDistributions before)
                    ++ map (fun j => (j, calibrationFormula j Vrh Vt Vsupply))
                           requested).
Proof.
  intros D A R U parseArgs argv rng0 indeterminate arguments stderr
         Hget Hmc Hsel N requested st0.
  set (values := map (fun i => calibratedSensorOutput
                                 (computationLoop U arguments (S i) 0 st0))
                     (seq 0 N)).
  exists (computationLoop U arguments N 0 st0), values.
  split; [apply main_computed, Hget|].
  split.
  { rewrite (computationLoop_samples U arguments N N st0 Hmc).
    - rewrite Nat.sub_diag, app_nil_r. subst values.
      rewrite map_map. reflexivity.
    - subst st0. unfold initialMainState. cbn. rewrite Hmc. reflexivity.
    - lia. }
  split; [subst values; rewrite length_map, length_seq; reflexivity|].
  split; [intros HN; subst values; rewrite HN; reflexivity|].
  intros i Hi before after.
  assert (Hafter : after = loopBody U arguments i before).
  { subst after before. apply computationLoop_S. }
  destruct (loopBody_unfold U arguments i before)
    as (_ & Hdrawn & Hmem & Hvalue & _).
  rewrite <- Hafter in Hdrawn, Hmem, Hvalue.
  assert (Hlen : length (fst (setInputDistributionsViaUxHwCall U (rng before)
                                (inputDistributions before))) = 3).
  { rewrite setInputDistributionsViaUxHwCall_length. subst before.
    rewrite computationLoop_inputs_length. reflexivity. }
  destruct (fst (setInputDistributionsViaUxHwCall U (rng before)
                   (inputDistributions before)))
    as [|Vrh [|Vt [|Vsupply [|extra drawn]]]]; try discriminate Hlen.
  assert (Hcells : length (cells (outputDistributions before))
                   = kOutputDistributionIndexMax).
  { subst before. rewrite computationLoop_cells_length. reflexivity. }
  destruct (calculateSensorOutput_value arguments Vrh Vt Vsupply
              (outputDistributions before) Hsel) as (k & Hlast & Hk).
  exists Vrh, Vt, Vsupply, k.
  split; [reflexivity|]. split; [exact Hdrawn|]. split; [exact Hlast|].
  split; [|split].
  - subst values. rewrite list_lookup_fmap, lookup_seq_lt by exact Hi.
    cbn [fmap option_fmap option_map Nat.add]. fold after.
    rewrite Hvalue, Hk. reflexivity.
  - intros j Hj. rewrite Hmem.
    apply calculateSensorOutput_requested; assumption.
  - rewrite Hmem. apply calculateSensorOutput_writes.
Qed.

Lemma computationLoop_fills_sample_buffer_witness :
  exists (st : MainState) (buffer : list Q) (Vrh Vt Vsupply : Q),
    main lcgUniform (parsedAs (monteCarloOptions 0 3)) [] 1%Z (fun _ => 0%Q)
    = Computed [] {| common := monteCarloOptions 0 3 |} st
    /\ monteCarloOutputSamples st = Some (map Some buffer)
    /\ length buffer = 3
    /\ inputDistributions st = [Vrh; Vt; Vsupply]
    /\ buffer !! 2 = Some (-12.5 + 125 * (Vrh / Vsupply))%Q
    /\ cells (outputDistributions st) !! 0
       = Some (-12.5 + 125 * (Vrh / Vsupply))%Q.
Proof.
  destruct (computationLoop_fills_sample_buffer Q Q_arith Z lcgUniform
              (parsedAs (monteCarloOptions 0 3)) [] 1%Z (fun _ => 0%Q)
              {| common := monteCarloOptions 0 3 |} [])
    as (st & buffer & Hmain & Hbuf & Hlen & _ & Hiter).
  - reflexivity.
  - reflexivity.
  - vm_compute. lia.
  - destruct (Hiter 2) as (Vrh & Vt & Vsupply & k & _ & Hin & Hk & Hslot
                           & Hcells & _); [vm_compute; lia|].
    injection Hk as <-.
    pose proof (eq_trans (eq_sym Hmain)
                  (main_computed lcgUniform (parsedAs (monteCarloOptions 0 3))
                     [] 1%Z (fun _ => 0%Q)
                     {| common := monteCarloOptions 0 3 |} [] eq_refl))
      as Hst.
    injection Hst as Hst.
    exists st, buffer, Vrh, Vt, Vsupply.
    split; [exact Hmain|]. split; [exact Hbuf|]. split; [exact Hlen|].
    rewrite Hst.
    split; [exact Hin|]. split; [exact Hslot|].
    apply (Hcells 0). left. reflexivity.
Defined.



Section SamplerRange.
Context {R : Type}.
Variable UxHwDoubleUniformDist : R -> Q -> Q -> Q * R.
Hypothesis UxHwDoubleUniformDist_in_range :
  forall (rng : R) (low high : Q),
    (low < high)%Q ->
    (low <= fst (UxHwDoubleUniformDist rng low high) <= high)%Q.

Lemma setInputDistributionsViaUxHwCall_default_ranges
    (rng : R) (inputs : list Q) :
  length inputs = kInputDistributionIndexMax ->
  exists Vrh Vt Vsupply : Q,
    fst (setInputDistributionsViaUxHwCall UxHwDoubleUniformDist rng inputs)
    = [Vrh; Vt; Vsupply]
    /\ inDefaultRanges Vrh Vt Vsupply.
Proof using UxHwDoubleUniformDist_in_range.
  intros Hlen.
  destruct inputs as [|a [|b [|c [|d inputs]]]]; try discriminate Hlen.
  unfold setInputDistributionsViaUxHwCall,
    kDefaultInputDistributionVrhUniformDistLow,
    kDefaultInputDistributionVrhUniformDistHigh,
    kDefaultInputDistributionVtUniformDistLow,
    kDefaultInputDistributionVtUniformDistHigh,
    kDefaultInputDistributionVsupplyUniformDistLow,
    kDefaultInputDistributionVsupplyUniformDistHigh.
  cbn [dlit Q_arith].
  pose proof (UxHwDoubleUniformDist_in_range rng 2.3%Q 2.7%Q eq_refl) as H1.
  destruct (UxHwDoubleUniformDist rng 2.3%Q 2.7%Q) as [v1 rng1].
  pose proof (UxHwDoubleUniformDist_in_range rng1 2.3%Q 2.7%Q eq_refl) as H2.
  destruct (UxHwDoubleUniformDist rng1 2.3%Q 2.7%Q) as [v2 rng2].
  pose proof (UxHwDoubleUniformDist_in_range rng2 4.8%Q 5.4%Q eq_refl) as H3.
  destruct (UxHwDoubleUniformDist rng2 4.8%Q 5.4%Q) as [v3 rng3].
  exists v1, v2, v3. split; [reflexivity|].
  repeat split; cbn [fst] in *; tauto.
Qed.
End SamplerRange.

(** X13.  In exact arithmetic, whenever the platform's uniform generator
    returns a value between the bounds it is given, every sample a Monte
    Carlo run on a single output stores in the buffer lies inside the
    interval that output spans over the default input ranges (relative
    humidity between about 40.74 and 57.82 percent, for instance). *)
Theorem main_samples_within_calibrated_range :
  forall (R : Type) (UxHwDoubleUniformDist : R -> Q -> Q -> Q * R)
         (parseArgs : list String.string -> CommonCommandLineArguments ->
                      Z * CommonCommandLineArguments)
         (argv : list String.string) (rng0 : R) (indeterminate : nat -> Q)
         (arguments : CommandLineArguments) (stderr : list Diagnostic),
    (forall (rng : R) (low high : Q),
        (low < high)%Q ->
        (low <= fst (UxHwDoubleUniformDist rng low high) <= high)%Q) ->
    getCommandLineArguments parseArgs argv (Some setDefaultCommandLineArguments)
    = (Returned (kCommonConstantReturnTypeSuccess, Some arguments), stderr) ->
    isMonteCarloMode (common arguments) = true ->
    outputSelect (common arguments) < kOutputDistributionIndexMax ->
    exists (st : MainState) (buffer : list Q),
      main UxHwDoubleUniformDist parseArgs argv rng0 indeterminate
      = Computed stderr arguments st
      /\ monteCarloOutputSamples st = Some (map Some buffer)
      /\ length buffer = numberOfMonteCarloIterations (common arguments)
      /\ Forall (inCalibratedRange (outputSelect (common arguments))) buffer.
Proof.
  intros R U parseArgs argv rng0 indeterminate arguments stderr
         Hcontract Hget Hmc Hsel.
  set (N := numberOfMonteCarloIterations (common arguments)).
  set (st0 := initialMainState arguments rng0 indeterminate).
  exists (computationLoop U arguments N 0 st0),
         (map (fun i => calibratedSensorOutput
                          (computationLoop U arguments (S i) 0 st0))
              (seq 0 N)).
  split; [apply main_computed, Hget|]. split; [|split].
  - rewrite (computationLoop_samples U arguments N N st0 Hmc).
    + rewrite Nat.sub_diag, app_nil_r, map_map. reflexivity.
    + subst st0. unfold initialMainState. cbn. rewrite Hmc. reflexivity.
    + lia.
  - rewrite length_map, length_seq. reflexivity.
  - apply List.Forall_forall. intros v Hv.
    apply in_map_iff in Hv. destruct Hv as (i & <- & _).
    rewrite computationLoop_S.
    set (before := computationLoop U arguments i 0 st0).
    destruct (loopBody_unfold U arguments i before) as (_ & _ & _ & -> & _).
    destruct (setInputDistributionsViaUxHwCall_default_ranges U Hcontract
                (rng before) (inputDistributions before))
      as (Vrh & Vt & Vsupply & -> & Hranges).
    { subst before. rewrite computationLoop_inputs_length. reflexivity. }
    destruct (calculateSensorOutput_value arguments Vrh Vt Vsupply
                (outputDistributions before)) as (k & Hlast & ->); [lia|].
    assert (Hk : k = outputSelect (common arguments)).
    { revert Hlast. unfold requestedOutputs.
      destruct (Nat.eqb_spec (outputSelect (common arguments))
                  kOutputDistributionIndexMax); [lia|].
      destruct (Nat.ltb_spec (outputSelect (common arguments))
                  kOutputDistributionIndexMax); [|lia].
      cbn. intros Heq. injection Heq as <-. reflexivity. }
    subst k. apply calibrationFormula_in_range. exact Hranges.
Qed.

Lemma main_samples_within_calibrated_range_witness :
  exists (st : MainState) (buffer : list Q),
    main lcgUniform (parsedAs (monteCarloOptions 0 3)) [] 1%Z (fun _ => 0%Q)
    = Computed [] {| common := monteCarloOptions 0 3 |} st
    /\ monteCarloOutputSamples st = Some (map Some buffer)
    /\ Forall (inCalibratedRange 0) buffer.
Proof.
  destruct (main_samples_within_calibrated_range Z lcgUniform
              (parsedAs (monteCarloOptions 0 3)) [] 1%Z (fun _ => 0%Q)
              {| common := monteCarloOptions 0 3 |} [] lcgUniform_in_range
              eq_refl eq_refl)
    as (st & buffer & Hmain & Hbuf & _ & Hall).
  - vm_compute. lia.
  - exists st, buffer. split; [exact Hmain|]. split; [exact Hbuf|exact Hall].
Defined.

(** * Properties of the reporting routines *)

Lemma pointProbabilityGT_range (value cutoff : Q) :
  (0 <= pointProbabilityGT value cutoff <= 1)%Q.
Proof.
  unfold pointProbabilityGT.
  destruct (Qle_bool value cutoff); split; discriminate.
Qed.

Lemma pointProbabilityGT_antitone (value low high : Q) :
  (low <= high)%Q ->
  (pointProbabilityGT value high <= pointProbabilityGT value low)%Q.
Proof.
  intros Hle. unfold pointProbabilityGT.
  destruct (Qle_bool value low) eqn:Hlow.
  - apply Qle_bool_iff in Hlow.
    assert (Hhigh : Qle_bool value high = true).
    { apply Qle_bool_iff. eapply Qle_trans; eassumption. }
    rewrite Hhigh. discriminate.
  - destruct (Qle_bool value high); discriminate.
Qed.

(** X14.  In exact arithmetic, whenever the platform's probability query
    returns values between 0 and 1 and does not increase with the cutoff,
    the eight probabilities [printCalibratedValueAndProbabilities] prints
    lie between 0 and 1; for a non-negative value each list (5, 50, 100,
    200 percent or more smaller; 5, 50, 100, 200 percent or more greater)
    is non-increasing, and for a non-positive value each list is
    non-decreasing. *)
Theorem printCalibratedValueAndProbabilities_ordered :
  forall (UxHwDoubleProbabilityGT : Q -> Q -> Q)
         (calibratedSensorOutput : Q)
         (variableDescription units : String.string),
    (forall value cutoff : Q,
        (0 <= UxHwDoubleProbabilityGT value cutoff <= 1)%Q) ->
    (forall value low high : Q,
        (low <= high)%Q ->
        (UxHwDoubleProbabilityGT value high
         <= UxHwDoubleProbabilityGT value low)%Q) ->
    exists s5 s50 s100 s200 g5 g50 g100 g200 : Q,
      smallerProbabilities
        (printCalibratedValueAndProbabilities UxHwDoubleProbabilityGT
           calibratedSensorOutput variableDescription units)
      = [s5; s50; s100; s200]
      /\ greaterProbabilities
           (printCalibratedValueAndProbabilities UxHwDoubleProbabilityGT
              calibratedSensorOutput variableDescription units)
         = [g5; g50; g100; g200]
      /\ Forall (fun p => 0 <= p <= 1)%Q
                [s5; s50; s100; s200; g5; g50; g100; g200]
      /\ ((0 <= calibratedSensorOutput)%Q ->
          (s200 <= s100 /\ s100 <= s50 /\ s50 <= s5)%Q
          /\ (g200 <= g100 /\ g100 <= g50 /\ g50 <= g5)%Q)
      /\ ((calibratedSensorOutput <= 0)%Q ->
          (s5 <= s50 /\ s50 <= s100 /\ s100 <= s200)%Q
          /\ (g5 <= g50 /\ g50 <= g100 /\ g100 <= g200)%Q).
Proof.
  intros GT v description units Hrange Hanti.
  do 8 eexists. split; [reflexivity|]. split; [reflexivity|].
  cbn [dlit dsub dmul Q_arith].
  split.
  - repeat (apply Forall_cons; split;
            [match goal with
             | |- context [GT ?x ?t] => pose proof (Hrange x t)
             end; lra|]).
    apply Forall_nil. exact I.
  - assert (Hsmaller : forall low high : Q,
               (low <= high)%Q -> (1 - GT v low <= 1 - GT v high)%Q).
    { intros low high Hle. pose proof (Hanti v low high Hle). lra. }
    split; intros Hsign;
      (split; [repeat split; apply Hsmaller; lra
              |repeat split; apply Hanti; lra]).
Qed.

Lemma printCalibratedValueAndProbabilities_ordered_witness :
  exists s5 s50 s100 s200 g5 g50 g100 g200 : Q,
    smallerProbabilities
      (printCalibratedValueAndProbabilities pointProbabilityGT
         48.5%Q "Calibrated Relative Humidity"%string "%"%string)
    = [s5; s50; s100; s200]
    /\ greaterProbabilities
         (printCalibratedValueAndProbabilities pointProbabilityGT
            48.5%Q "Calibrated Relative Humidity"%string "%"%string)
       = [g5; g50; g100; g200]
    /\ Forall (fun p => 0 <= p <= 1)%Q
              [s5; s50; s100; s200; g5; g50; g100; g200].
Proof.
  destruct (printCalibratedValueAndProbabilities_ordered pointProbabilityGT
              48.5%Q "Calibrated Relative Humidity"%string "%"%string
              pointProbabilityGT_range pointProbabilityGT_antitone)
    as (s5 & s50 & s100 & s200 & g5 & g50 & g100 & g200
        & Hs & Hg & Hall & _).
  exists s5, s50, s100, s200, g5, g50, g100, g200.
  split; [exact Hs|]. split; [exact Hg|exact Hall].
Defined.

Lemma substring_all (text : String.string) (limit : nat) :
  String.length text <= limit -> String.substring 0 limit text = text.
Proof.
  revert limit. induction text as [|c text IH]; intros limit Hlen.
  - destruct limit; reflexivity.
  - destruct limit as [|limit]; [cbn in Hlen; lia|].
    cbn. rewrite IH by (cbn in Hlen; lia). reflexivity.
Qed.

(** X15.  For every selector of the enumeration, [printJSONFormattedOutput]
    hands to [printJSONVariables] one variable per requested output, in the
    order of the outputs: the variable of output [i] carries the description
    of output [i], the type double, the iteration count as size and, as
    values, the sample buffer in Monte Carlo mode and the address of
    [outputDistributions[i]] otherwise.  When the symbol buffer has room for
    23 characters its symbol is [outputDistributions[i]]. *)
Theorem printJSONFormattedOutput_variables :
  forall (kCommonConstantMaxCharsPerJSONVariableSymbol
          kCommonConstantMaxCharsPerJSONVariableDescription : nat)
         (arguments : CommandLineArguments)
         (monteCarloOutputSamples outputDistributions : DoublePointer)
         (outputVariableDescriptions : list String.string)
         (indeterminate : nat -> JSONVariable),
    outputSelect (common arguments) <= kOutputDistributionIndexMax ->
    let variables :=
      fst (printJSONFormattedOutput
             kCommonConstantMaxCharsPerJSONVariableSymbol
             kCommonConstantMaxCharsPerJSONVariableDescription
             arguments monteCarloOutputSamples outputDistributions
             outputVariableDescriptions indeterminate) in
    let requested := requestedOutputs (outputSelect (common arguments)) in
    variables
    = map (fun i =>
             populateJSONVariableStruct
               kCommonConstantMaxCharsPerJSONVariableSymbol
               kCommonConstantMaxCharsPerJSONVariableDescription
               (indeterminate i)
               (if isMonteCarloMode (common arguments)
                then monteCarloOutputSamples
                else pointerAt outputDistributions i)
               (stringAt outputVariableDescriptions i) i
               (numberOfMonteCarloIterations (common arguments)))
          requested
    /\ map size variables
       = map (fun _ => numberOfMonteCarloIterations (common arguments))
             requested
    /\ (22 < kCommonConstantMaxCharsPerJSONVariableSymbol ->
        map variableSymbol variables
        = map (fun i =>
                 String.append "outputDistributions["
                   (String.append (decimalOfNat i) "]"))
              requested).
Proof.
  intros kSymbol kDescription arguments samples outputs descriptions
         indeterminate Hsel variables requested.
  assert (Hvars :
    variables
    = map (fun i =>
             populateJSONVariableStruct kSymbol kDescription (indeterminate i)
               (if isMonteCarloMode (common arguments)
                then samples else pointerAt outputs i)
               (stringAt descriptions i) i
               (numberOfMonteCarloIterations (common arguments)))
          requested).
  { subst variables requested. unfold printJSONFormattedOutput.
    destruct (outputSelect (common arguments)) as [|[|[|[|n]]]];
      [ | | | | unfold kOutputDistributionIndexMax in Hsel; lia ];
      reflexivity. }
  split; [exact Hvars|]. rewrite Hvars. split.
  - rewrite map_map. reflexivity.
  - intros Hroom. rewrite map_map. apply map_ext_in. intros i Hi.
    cbn [populateJSONVariableStruct variableSymbol].
    destruct kSymbol as [|limit]; [lia|]. cbn [snprintf].
    apply substring_all.
    assert (Hi3 : i < 3).
    { subst requested. unfold requestedOutputs in Hi.
      destruct (outputSelect (common arguments)) as [|[|[|[|n]]]];
        cbv in Hi; intuition lia. }
    destruct i as [|[|[|i]]]; [cbn; lia|cbn; lia|cbn; lia|lia].
Qed.

Lemma printJSONFormattedOutput_variables_witness :
  map variableSymbol
    (fst (printJSONFormattedOutput 256 1024
            (selecting kOutputDistributionIndexMax)
            NullPointer (OutputsPointer 0) outputVariableNames
            (fun _ => blankVariable)))
  = ["outputDistributions[0]"; "outputDistributions[1]";
     "outputDistributions[2]"]%string.
Proof.
  refine (proj2 (proj2 (printJSONFormattedOutput_variables 256 1024
            (selecting kOutputDistributionIndexMax)
            NullPointer (OutputsPointer 0) outputVariableNames
            (fun _ => blankVariable)
            _)) _); vm_compute; lia.
Defined.

(** X16.  What a reader finds behind the variables of the JSON output: in
    Monte Carlo mode, with a buffer of as many samples as iterations, every
    variable gives the whole sample buffer; outside Monte Carlo mode with
    one iteration, the variable of output [i] gives the single value
    [outputDistributions[i]]. *)
Theorem printJSONFormattedOutput_values :
  forall (D : Type) (A : DoubleArith D)
         (kCommonConstantMaxCharsPerJSONVariableSymbol
          kCommonConstantMaxCharsPerJSONVariableDescription : nat)
         (arguments : CommandLineArguments)
         (outputVariableDescriptions : list String.string)
         (indeterminate : nat -> JSONVariable)
         (samples : list (option D)) (outputs : list D),
    outputSelect (common arguments) <= kOutputDistributionIndexMax ->
    length outputs = kOutputDistributionIndexMax ->
    let variables :=
      fst (printJSONFormattedOutput
             kCommonConstantMaxCharsPerJSONVariableSymbol
             kCommonConstantMaxCharsPerJSONVariableDescription
             arguments (SamplesPointer 0) (OutputsPointer 0)
             outputVariableDescriptions indeterminate) in
    (isMonteCarloMode (common arguments) = true ->
     length samples = numberOfMonteCarloIterations (common arguments) ->
     map (fun variable => readDoubles variable samples outputs) variables
     = map (fun _ => samples)
           (requestedOutputs (outputSelect (common arguments))))
    /\ (isMonteCarloMode (common arguments) = false ->
        numberOfMonteCarloIterations (common arguments) = 1 ->
        map (fun variable => readDoubles variable samples outputs) variables
        = map (fun i => [Some (readOutput outputs i)])
              (requestedOutputs (outputSelect (common arguments)))).
Proof.
  intros D A kSymbol kDescription arguments descriptions indeterminate
         samples outputs Hsel Hlen variables.
  destruct outputs as [|a [|b [|c [|d outputs]]]]; try discriminate Hlen.
  subst variables. unfold printJSONFormattedOutput.
  split.
  - intros Hmc Hsamples.
    destruct (outputSelect (common arguments)) as [|[|[|[|n]]]];
      [ | | | | unfold kOutputDistributionIndexMax in Hsel; lia ];
      cbn; rewrite Hmc, <- Hsamples;
      unfold readDoubles, populateJSONVariableStruct; cbn [values size drop];
      rewrite ?firstn_all; reflexivity.
  - intros Hmc Hone.
    destruct (outputSelect (common arguments)) as [|[|[|[|n]]]];
      [ | | | | unfold kOutputDistributionIndexMax in Hsel; lia ];
      cbn; rewrite Hmc, Hone; reflexivity.
Qed.

Lemma printJSONFormattedOutput_values_witness :
  map (fun variable => readDoubles variable [] [7; 8; 9]%Q)
    (fst (printJSONFormattedOutput 256 1024
            {| common := plainOptions 1 1 |}
            (SamplesPointer 0) (OutputsPointer 0) outputVariableNames
            (fun _ => blankVariable)))
  = [[Some 8%Q]].
Proof.
  refine (proj2 (printJSONFormattedOutput_values Q Q_arith 256 1024
            {| common := plainOptions 1 1 |}
            outputVariableNames (fun _ => blankVariable)
            [] [7; 8; 9]%Q _ eq_refl) eq_refl eq_refl).
  vm_compute. lia.
Defined.

(** * Properties of the whole of [main] *)

(** Accepted arguments never combine writing to a file with Monte Carlo
    mode, nor "all outputs" with benchmarking or Monte Carlo mode. *)
Lemma accepted_modes
    (parseArgs : list String.string -> CommonCommandLineArguments ->
                 Z * CommonCommandLineArguments)
    (argv : list String.string) (arguments : CommandLineArguments)
    (stderr : list Diagnostic) :
  getCommandLineArguments parseArgs argv (Some setDefaultCommandLineArguments)
  = (Returned (kCommonConstantReturnTypeSuccess, Some arguments), stderr) ->
  isWriteToFileEnabled (common arguments)
  && isMonteCarloMode (common arguments) = false
  /\ (outputSelect (common arguments) = kOutputDistributionIndexMax ->
      isBenchmarkingMode (common arguments) = false
      /\ isMonteCarloMode (common arguments) = false).
Proof.
  unfold getCommandLineArguments.
  destruct (parseArgs argv _) as [status parsed]. cbn [common].
  destruct (negb (status =? 0)%Z); [discriminate|].
  destruct (isHelpEnabled parsed); [discriminate|].
  destruct (isInputFromFileEnabled parsed); [discriminate|].
  destruct (isWriteToFileEnabled parsed && isMonteCarloMode parsed) eqn:Hfile;
    [discriminate|].
  destruct (isOutputSelected parsed); cbn [negb common].
  - destruct (Nat.ltb_spec kOutputDistributionIndexMax (outputSelect parsed))
      as [Hlt|Hle].
    + intros Heq. injection Heq as <- <-. cbn [common].
      split; [exact Hfile|]. intros Hmax. lia.
    + destruct (Nat.eqb_spec (outputSelect parsed) kOutputDistributionIndexMax)
        as [Hmax|Hnmax].
      * destruct (isBenchmarkingMode parsed || isMonteCarloMode parsed)
          eqn:Hmode; [discriminate|].
        apply orb_false_elim in Hmode.
        intros Heq. injection Heq as <- <-. cbn [common].
        split; [exact Hfile|]. intros _. exact Hmode.
      * intros Heq. injection Heq as <- <-. cbn [common].
        split; [exact Hfile|]. intros Hmax. contradiction.
  - cbn [set_outputSelect outputSelect isBenchmarkingMode isMonteCarloMode].
    cbn [Nat.ltb Nat.leb Nat.eqb kOutputDistributionIndexMax].
    destruct (isBenchmarkingMode parsed || isMonteCarloMode parsed)
      eqn:Hmode; [discriminate|].
    apply orb_false_elim in Hmode.
    intros Heq. injection Heq as <- <-. cbn.
    split; [exact Hfile|]. intros _. exact Hmode.
Qed.

(** X17.  In benchmarking mode the program prints exactly one line, the
    tracked value and the elapsed time in microseconds, writes no CSV file
    even when writing to a file is enabled, saves the samples only in Monte
    Carlo mode, and exits with status zero.  Outside Monte Carlo mode the
    value printed is [calibratedSensorOutput] as the loop left it. *)
Theorem mainWithReport_benchmarking :
  forall (D : Type) (A : DoubleArith D) (R : Type)
         (UxHwDoubleProbabilityGT : D -> D -> D)
         (doubleToUint64 : D -> Z)
         (writeOutputDoubleDistributionsToCSV :
            CommonCommandLineArguments -> list D -> list String.string ->
            nat -> Z)
         (meanAndVarianceOfSamples :
            option (list (option D)) -> nat -> MeanAndVariance D)
         (kSymbol kDescription : nat)
         (UxHwDoubleUniformDist : R -> D -> D -> D * R)
         (parseArgs : list String.string -> CommonCommandLineArguments ->
                      Z * CommonCommandLineArguments)
         (argv : list String.string) (rng0 : R) (indeterminate : nat -> D)
         (indeterminateVariables : nat -> JSONVariable) (elapsed : D)
         (arguments : CommandLineArguments) (stderr : list Diagnostic),
    getCommandLineArguments parseArgs argv (Some setDefaultCommandLineArguments)
    = (Returned (kCommonConstantReturnTypeSuccess, Some arguments), stderr) ->
    isBenchmarkingMode (common arguments) = true ->
    exists (st : MainState) (value : D),
      main UxHwDoubleUniformDist parseArgs argv rng0 indeterminate
      = Computed stderr arguments st
      /\ mainWithReport UxHwDoubleProbabilityGT doubleToUint64
           writeOutputDoubleDistributionsToCSV meanAndVarianceOfSamples
           kSymbol kDescription UxHwDoubleUniformDist parseArgs
           argv rng0 indeterminate indeterminateVariables elapsed
         = (stderr,
            BenchmarkLine value
              (doubleToUint64 (elapsed * dlit 1000000)%D)
            :: (if isMonteCarloMode (common arguments)
                then [MonteCarloDataFile (monteCarloOutputSamples st)
                        (doubleToUint64 (elapsed * dlit 1000000)%D)
                        (numberOfMonteCarloIterations (common arguments))]
                else []),
            0%Z)
      /\ (isMonteCarloMode (common arguments) = false ->
          value = calibratedSensorOutput st).
Proof.
  intros D A R GT toUint64 writeCSV aggregate kSymbol kDescription U parseArgs
         argv rng0 indeterminate indeterminateVariables elapsed arguments
         stderr Hget Hbench.
  pose proof (main_computed U parseArgs argv rng0 indeterminate arguments
                stderr Hget) as Hmain.
  eexists _, _. split; [exact Hmain|].
  unfold mainWithReport. rewrite Hmain.
  unfold reportResults, saveAndReturn. rewrite Hbench, orb_true_r.
  cbn [app]. split; [reflexivity|].
  intros Hmc. rewrite Hmc. reflexivity.
Qed.

Lemma mainWithReport_benchmarking_witness :
  exists (st : MainState) (value : Q),
    main lcgUniform (parsedAs (benchmarkingFileOptions 0)) [] 1%Z
         (fun _ => 0%Q)
    = Computed [] {| common := benchmarkingFileOptions 0 |} st
    /\ mainWithReport pointProbabilityGT truncateQ csvWriterSucceeds
         zeroMeanAndVariance 256 1024 lcgUniform
         (parsedAs (benchmarkingFileOptions 0)) [] 1%Z (fun _ => 0%Q)
         (fun _ => blankVariable) 0.25%Q
       = ([], [BenchmarkLine value 250000%Z], 0%Z).
Proof.
  destruct (mainWithReport_benchmarking Q Q_arith Z pointProbabilityGT
              truncateQ csvWriterSucceeds zeroMeanAndVariance 256 1024
              lcgUniform (parsedAs (benchmarkingFileOptions 0)) [] 1%Z
              (fun _ => 0%Q) (fun _ => blankVariable) 0.25%Q
              {| common := benchmarkingFileOptions 0 |} [] eq_refl eq_refl)
    as (st & value & Hmain & Hreport & _).
  exists st, value. split; [exact Hmain|exact Hreport].
Defined.



(** X19.  Outside benchmarking mode, for a selector of the enumeration
    (a single existing output or "all"), when writing to a file is enabled
    the last thing the program does is to hand all
    [kOutputDistributionIndexMax] entries of [outputDistributions] to the
    CSV writer, and its exit status is zero exactly when the writer returns
    zero.  With a single output selected, the entries of the other outputs
    in that array are the indeterminate values the array had when [main]
    started. *)
Theorem mainWithReport_csv_file :
  forall (D : Type) (A : DoubleArith D) (R : Type)
         (UxHwDoubleProbabilityGT : D -> D -> D)
         (doubleToUint64 : D -> Z)
         (writeOutputDoubleDistributionsToCSV :
            CommonCommandLineArguments -> list D -> list String.string ->
            nat -> Z)
         (meanAndVarianceOfSamples :
            option (list (option D)) -> nat -> MeanAndVariance D)
         (kSymbol kDescription : nat)
         (UxHwDoubleUniformDist : R -> D -> D -> D * R)
         (parseArgs : list String.string -> CommonCommandLineArguments ->
                      Z * CommonCommandLineArguments)
         (argv : list String.string) (rng0 : R) (indeterminate : nat -> D)
         (indeterminateVariables : nat -> JSONVariable) (elapsed : D)
         (arguments : CommandLineArguments) (stderr : list Diagnostic),
    getCommandLineArguments parseArgs argv (Some setDefaultCommandLineArguments)
    = (Returned (kCommonConstantReturnTypeSuccess, Some arguments), stderr) ->
    outputSelect (common arguments) <= kOutputDistributionIndexMax ->
    isBenchmarkingMode (common arguments) = false ->
    isWriteToFileEnabled (common arguments) = true ->
    exists (st : MainState) (events : list OutputEvent) (status : Z),
      main UxHwDoubleUniformDist parseArgs argv rng0 indeterminate
      = Computed stderr arguments st
      /\ mainWithReport UxHwDoubleProbabilityGT doubleToUint64
           writeOutputDoubleDistributionsToCSV meanAndVarianceOfSamples
           kSymbol kDescription UxHwDoubleUniformDist parseArgs
           argv rng0 indeterminate indeterminateVariables elapsed
         = (stderr, events, status)
      /\ last events
         = Some (CSVFile (cells (outputDistributions st)) outputVariableNames
                   kOutputDistributionIndexMax)
      /\ (status = 0%Z <->
          writeOutputDoubleDistributionsToCSV (common arguments)
            (cells (outputDistributions st)) outputVariableNames
            kOutputDistributionIndexMax = 0%Z)
      /\ length (cells (outputDistributions st)) = kOutputDistributionIndexMax
      /\ (outputSelect (common arguments) < kOutputDistributionIndexMax ->
          forall j : nat,
            j < kOutputDistributionIndexMax ->
            j <> outputSelect (common arguments) ->
            cells (outputDistributions st) !! j
            = Some (indeterminate (3 + j))).
Proof.
  intros D A R GT toUint64 writeCSV aggregate kSymbol kDescription U parseArgs
         argv rng0 indeterminate indeterminateVariables elapsed arguments
         stderr Hget Hbound Hbench Hwrite.
  pose proof (main_computed U parseArgs argv rng0 indeterminate arguments
                stderr Hget) as Hmain.
  destruct (accepted_modes parseArgs argv arguments stderr Hget) as [Hfile _].
  rewrite Hwrite in Hfile. cbn [andb] in Hfile.
  set (st := computationLoop U arguments
               (numberOfMonteCarloIterations (common arguments)) 0
               (initialMainState arguments rng0 indeterminate)) in *.
  assert (Hlen : length (cells (outputDistributions st))
                 = kOutputDistributionIndexMax).
  { subst st. rewrite computationLoop_cells_length. reflexivity. }
  assert (Hframe :
    outputSelect (common arguments) < kOutputDistributionIndexMax ->
    forall j : nat,
      j < kOutputDistributionIndexMax ->
      j <> outputSelect (common arguments) ->
      cells (outputDistributions st) !! j = Some (indeterminate (3 + j))).
  { intros Hsel j Hj Hne. subst st.
    rewrite computationLoop_other_cells by lia.
    unfold kOutputDistributionIndexMax in Hj.
    destruct j as [|[|[|j]]]; [reflexivity|reflexivity|reflexivity|lia]. }
  unfold mainWithReport. rewrite Hmain. fold st.
  unfold reportResults, saveAndReturn. rewrite Hbench, Hwrite, Hfile.
  destruct (Z.eqb_spec
              (writeCSV (common arguments) (cells (outputDistributions st))
                 outputVariableNames kOutputDistributionIndexMax) 0)
    as [Hok|Hfail]; cbn [negb];
    eexists st, _, _; (split; [reflexivity|]); (split; [reflexivity|]);
    (split; [rewrite ?app_nil_r, !app_assoc; apply last_snoc|]);
    (split; [|split; [exact Hlen|exact Hframe]]).
  - split; [intros _; exact Hok|reflexivity].
  - split; [discriminate|intros Hok; contradiction].
Qed.

Lemma mainWithReport_csv_file_witness :
  exists (st : MainState) (events : list OutputEvent) (status : Z),
    main lcgUniform (parsedAs (fileOptions 1)) [] 1%Z
         (fun k => inject_Z (Z.of_nat k))
    = Computed [] {| common := fileOptions 1 |} st
    /\ last events
       = Some (CSVFile (cells (outputDistributions st)) outputVariableNames
                 kOutputDistributionIndexMax)
    /\ cells (outputDistributions st) !! 0 = Some 3%Q
    /\ cells (outputDistributions st) !! 2 = Some 5%Q.
Proof.
  destruct (mainWithReport_csv_file Q Q_arith Z pointProbabilityGT
              truncateQ csvWriterSucceeds zeroMeanAndVariance 256 1024
              lcgUniform (parsedAs (fileOptions 1)) [] 1%Z
              (fun k => inject_Z (Z.of_nat k)) (fun _ => blankVariable)
              0.25%Q {| common := fileOptions 1 |} []
              eq_refl ltac:(vm_compute; lia) eq_refl eq_refl)
    as (st & events & status & Hmain & _ & Hlast & _ & _ & Hframe).
  exists st, events, status. split; [exact Hmain|]. split; [exact Hlast|].
  split.
  - apply (Hframe ltac:(vm_compute; lia) 0);
      [vm_compute; lia|discriminate].
  - apply (Hframe ltac:(vm_compute; lia) 2);
      [vm_compute; lia|discriminate].
Defined.

(** X20.  The calibration consumes no randomness: the input samples drawn
    and the state of the generator after any number of iterations depend
    only on the starting state of the generator and of the input array,
    not on the arguments (selector and modes), the loop counter, the
    output array or the sample buffer. *)
Theorem computationLoop_draws_independent_of_arguments :
  forall (D : Type) (A : DoubleArith D) (R : Type)
         (UxHwDoubleUniformDist : R -> D -> D -> D * R)
         (arguments arguments' : CommandLineArguments)
         (n i i' : nat) (st st' : MainState),
    rng st = rng st' ->
    inputDistributions st = inputDistributions st' ->
    rng (computationLoop UxHwDoubleUniformDist arguments n i st)
    = rng (computationLoop UxHwDoubleUniformDist arguments' n i' st')
    /\ inputDistributions
         (computationLoop UxHwDoubleUniformDist arguments n i st)
       = inputDistributions
           (computationLoop UxHwDoubleUniformDist arguments' n i' st').
Proof.
  intros D A R U arguments arguments' n.
  induction n as [|n IH]; intros i i' st st' Hrng Hinputs.
  - split; assumption.
  - cbn [computationLoop]. apply IH.
    + destruct (loopBody_unfold U arguments i st) as (-> & _).
      destruct (loopBody_unfold U arguments' i' st') as (-> & _).
      rewrite Hrng, Hinputs. reflexivity.
    + destruct (loopBody_unfold U arguments i st) as (_ & -> & _).
      destruct (loopBody_unfold U arguments' i' st') as (_ & -> & _).
      rewrite Hrng, Hinputs. reflexivity.
Qed.

Lemma computationLoop_draws_independent_of_arguments_witness :
  inputDistributions
    (computationLoop lcgUniform {| common := monteCarloOptions 0 3 |} 3 0
       (initialMainState {| common := monteCarloOptions 0 3 |} 1%Z
          (fun _ => 0%Q)))
  = inputDistributions
      (computationLoop lcgUniform {| common := plainOptions 3 3 |} 3 0
         (initialMainState {| common := plainOptions 3 3 |} 1%Z
            (fun _ => 0%Q))).
Proof.
  apply (proj2 (computationLoop_draws_independent_of_arguments Q Q_arith Z
                  lcgUniform {| common := monteCarloOptions 0 3 |}
                  {| common := plainOptions 3 3 |} 3 0 0
                  (initialMainState {| common := monteCarloOptions 0 3 |}
                     1%Z (fun _ => 0%Q))
                  (initialMainState {| common := plainOptions 3 3 |}
                     1%Z (fun _ => 0%Q))
                  eq_refl eq_refl)).
Defined.
